(** * Decision engine of cryptobrain_v2 (core/decision_engine)

    A shallow embedding of the three components of the trade decision
    engine:
    - [ExpectedValueCalculator] (expected_value.py),
    - [MarketAnalyzer] (market_analyzer.py),
    - [EmotionFilter] and [EmotionTracker] (emotion_filter.py).

    Python floats are modelled as exact rationals [Q]; Python's
    [round(x, n)] is rounding half to even of the exact value at [n]
    decimals.  Human readable reasoning / warning strings that are built
    with f-strings are kept as a constructor carrying the formatted
    values; constant strings are kept verbatim. *)

From Stdlib Require Import QArith Qround Qabs ZArith Arith String List Bool Lia.
From Stdlib Require Import DecimalString Lqa.
Import ListNotations.

Open Scope Q_scope.
Open Scope string_scope.

(** ** Python helpers *)

Definition Qltb (x y : Q) : bool := negb (Qle_bool y x).

(** [min(a, b)] / [max(a, b)] of Python: the first argument is returned
    unless the second one is strictly smaller / larger. *)
Definition py_min (a b : Q) : Q := if Qltb b a then b else a.
Definition py_max (a b : Q) : Q := if Qltb a b then b else a.

(** [dict.get(key, default)] on a field that may be absent. *)
Definition get {A : Type} (o : option A) (d : A) : A :=
  match o with Some v => v | None => d end.

Definition opt_eqb (o : option string) (s : string) : bool :=
  match o with Some v => String.eqb v s | None => false end.

Fixpoint pow10 (n : nat) : positive :=
  match n with O => 1%positive | S m => (10 * pow10 m)%positive end.

(** [round(x, n)]: round half to even at [n] decimals. *)
Definition py_round (n : nat) (x : Q) : Q :=
  let p := pow10 n in
  let y := x * (Zpos p # 1) in
  let f := Qfloor y in
  let d := y - inject_Z f in
  let r :=
    if Qltb d (1 # 2) then f
    else if Qltb (1 # 2) d then (f + 1)%Z
    else if Z.even f then f else (f + 1)%Z in
  r # p.

(** [f"{x:.kf}"]: [k] decimals, rounding half to even of the exact
    value; a negative value keeps its sign ([-0.3] gives "-0"). *)
Definition fmt_fixed (k : nat) (x : Q) : string :=
  let r := Qnum (py_round k (Qabs x)) in
  let ds := NilEmpty.string_of_int (Z.to_int r) in
  let ds := String.append (String.concat "" (repeat "0" (S k - String.length ds))) ds in
  let body :=
    match k with
    | O => ds
    | S _ => String.append (substring 0 (String.length ds - k) ds)
               (String.append "." (substring (String.length ds - k) k ds))
    end in
  if Qltb x 0 then String.append "-" body else body.

(** [dict.get(key)] on a dict kept as an association list in insertion
    order (its keys are distinct). *)
Fixpoint assoc_get {A : Type} (k : string) (d : list (string * A)) : option A :=
  match d with
  | [] => None
  | (k', v) :: r => if String.eqb k' k then Some v else assoc_get k r
  end.

(** ** expected_value.py *)

Inductive Recommendation := ENTER | SKIP | WAIT.
Inductive Confidence := HIGH | MEDIUM | LOW.

Definition Recommendation_value (r : Recommendation) : string :=
  match r with ENTER => "enter" | SKIP => "skip" | WAIT => "wait" end.

Definition Confidence_value (c : Confidence) : string :=
  match c with HIGH => "high" | MEDIUM => "medium" | LOW => "low" end.

Module TradeSetup.
Record t := mk {
  symbol : string;
  side : string;
  entry_price : Q;
  stop_loss : Q;
  take_profit : Q;
  risk_percent : Q;
  reward_percent : Q;
  risk_reward_ratio : Q
}.

(** The dataclass constructor with the computed fields at their
    defaults [0.0]. *)
Definition make (symbol side : string) (entry_price stop_loss take_profit : Q) : t :=
  mk symbol side entry_price stop_loss take_profit 0 0 0.

(** [TradeSetup.calculate_risk_reward]: the mutation of the three
    computed fields is returned as the updated setup. *)
Definition calculate_risk_reward (s : t) : t :=
  if Qle_bool (entry_price s) 0 then s
  else
    let '(risk, reward) :=
      if String.eqb (side s) "long" then
        (Qabs (entry_price s - stop_loss s) / entry_price s * 100,
         Qabs (take_profit s - entry_price s) / entry_price s * 100)
      else
        (Qabs (stop_loss s - entry_price s) / entry_price s * 100,
         Qabs (entry_price s - take_profit s) / entry_price s * 100) in
    let rr := if Qltb 0 risk then reward / risk else 0 in
    mk (symbol s) (side s) (entry_price s) (stop_loss s) (take_profit s)
       risk reward rr.
End TradeSetup.

(** Reasoning lines of [_make_decision]; f-strings keep their argument. *)
Inductive EVReason :=
  | EVR_NegativeEV (ev : Q)          (* "기대값 {ev:+.2f}%로 마이너스 ..." *)
  | EVR_LowEV (ev : Q)               (* "기대값 {ev:+.2f}%로 너무 낮음 ..." *)
  | EVR_BadRR (rr : Q)               (* "손익비 1:{rr:.1f}로 손실이 수익보다 큼" *)
  | EVR_LowRR (rr : Q)               (* "손익비 1:{rr:.1f}로 불리함 ..." *)
  | EVR_LowWinProb (wp : Q)          (* "추정 승률 {wp*100:.0f}%로 낮음 ..." *)
  | EVR_PositiveEV (ev : Q)          (* "기대값 +{ev:.2f}% (양수)" *)
  | EVR_GoodRR (rr : Q)              (* "손익비 1:{rr:.1f} (유리)" *)
  | EVR_WinProb (wp : Q)             (* "추정 승률 {wp*100:.0f}%" *)
  | EVR_Text (s : string).           (* constant lines *)

Module EVAnalysis.
Record t := mk {
  expected_value : Q;
  win_probability : Q;
  risk_reward_ratio : Q;
  kelly_fraction : Q;
  recommendation : Recommendation;
  confidence : Confidence;
  reasoning : list EVReason;
  risk_percent : Q;
  reward_percent : Q;
  optimal_position_pct : Q
}.
End EVAnalysis.

(** The value of [trend_strength_value] in a context dict: a string, or
    any other Python value (the [isinstance(strength_value, str)] test). *)
Inductive StrengthValue := SVStr (s : string) | SVOther.

(** The loosely typed [market_context] dict read by the calculator:
    each key may be absent ([None]). *)
Record EVContext := mkEVContext {
  ctx_rsi : option Q;
  ctx_macd_signal : option string;
  ctx_ma_alignment : option string;
  ctx_trend_direction : option string;
  ctx_trend_strength : option string;
  ctx_trend_strength_value : option StrengthValue;
  ctx_distance_to_support_pct : option Q;
  ctx_distance_to_resistance_pct : option Q;
  ctx_volatility_regime : option string
}.

Definition empty_context : EVContext :=
  mkEVContext None None None None None None None None None.

Module ExpectedValueCalculator.
Import TradeSetup.

Definition MIN_RISK_REWARD : Q := 1.5.
Definition MIN_WIN_PROB : Q := 0.35.
Definition MIN_EV : Q := 0.5.
Definition MAX_KELLY : Q := 0.25.

(** [self.default_pattern_probs] *)
Definition p_rsi_oversold : Q := 0.58.
Definition p_rsi_overbought : Q := 0.55.
Definition p_trend_following : Q := 0.52.
Definition p_counter_trend : Q := 0.42.
Definition p_breakout : Q := 0.48.
Definition p_support_bounce : Q := 0.55.
Definition p_resistance_rejection : Q := 0.53.
Definition p_default : Q := 0.50.

Definition _get_pattern_probability (setup : TradeSetup.t) (context : EVContext) : Q :=
  let rsi := get (ctx_rsi context) 50 in
  let first :=
    if String.eqb (side setup) "long" then
      if Qltb rsi 30 then Some p_rsi_oversold
      else if opt_eqb (ctx_ma_alignment context) "bullish" then Some p_trend_following
      else if opt_eqb (ctx_trend_direction context) "down" then Some p_counter_trend
      else None
    else
      if Qltb 70 rsi then Some p_rsi_overbought
      else if opt_eqb (ctx_ma_alignment context) "bearish" then Some p_trend_following
      else if opt_eqb (ctx_trend_direction context) "up" then Some p_counter_trend
      else None in
  match first with
  | Some p => p
  | None =>
      let distance_to_support := get (ctx_distance_to_support_pct context) 100 in
      let distance_to_resistance := get (ctx_distance_to_resistance_pct context) 100 in
      if String.eqb (side setup) "long" && Qltb distance_to_support 2 then p_support_bounce
      else if String.eqb (side setup) "short" && Qltb distance_to_resistance 2
      then p_resistance_rejection
      else p_default
  end.

Definition _calculate_technical_score (setup : TradeSetup.t) (context : EVContext) : Q :=
  let rsi := get (ctx_rsi context) 50 in
  let macd_signal := get (ctx_macd_signal context) "neutral" in
  let ma_alignment := get (ctx_ma_alignment context) "neutral" in
  let score := 0.5 in
  let score :=
    if String.eqb (side setup) "long" then
      let score :=
        if Qltb rsi 30 then score + 0.15
        else if Qltb rsi 40 then score + 0.10
        else if Qltb 70 rsi then score - 0.15
        else if Qltb 60 rsi then score - 0.08
        else score in
      let score :=
        if String.eqb macd_signal "bullish" then score + 0.10
        else if String.eqb macd_signal "bearish" then score - 0.10
        else score in
      if String.eqb ma_alignment "bullish" then score + 0.08
      else if String.eqb ma_alignment "bearish" then score - 0.08
      else score
    else
      let score :=
        if Qltb 70 rsi then score + 0.15
        else if Qltb 60 rsi then score + 0.10
        else if Qltb rsi 30 then score - 0.15
        else if Qltb rsi 40 then score - 0.08
        else score in
      let score :=
        if String.eqb macd_signal "bearish" then score + 0.10
        else if String.eqb macd_signal "bullish" then score - 0.10
        else score in
      if String.eqb ma_alignment "bearish" then score + 0.08
      else if String.eqb ma_alignment "bullish" then score - 0.08
      else score in
  py_max 0.2 (py_min 0.8 score).

Definition _calculate_trend_alignment (setup : TradeSetup.t) (context : EVContext) : Q :=
  let trend_direction := get (ctx_trend_direction context) "sideways" in
  let score := 0.5 in
  let score :=
    if String.eqb (side setup) "long" then
      if String.eqb trend_direction "up" then score + 0.2
      else if String.eqb trend_direction "down" then score - 0.15
      else score
    else
      if String.eqb trend_direction "down" then score + 0.2
      else if String.eqb trend_direction "up" then score - 0.15
      else score in
  let strength_value := get (ctx_trend_strength_value context) (SVStr "moderate") in
  let score :=
    match strength_value with
    | SVStr s =>
        if String.eqb s "strong" then
          if (String.eqb (side setup) "long" && String.eqb trend_direction "up")
             || (String.eqb (side setup) "short" && String.eqb trend_direction "down")
          then score + 0.1
          else score - 0.1
        else if String.eqb s "weak" then 0.5 + (score - 0.5) * 0.5
        else score
    | SVOther => score
    end in
  py_max 0.2 (py_min 0.8 score).

Definition _adjust_for_risk_reward (rr_ratio : Q) : Q :=
  if Qle_bool rr_ratio 1.0 then 0.55
  else if Qle_bool rr_ratio 1.5 then 0.52
  else if Qle_bool rr_ratio 2.0 then 0.50
  else if Qle_bool rr_ratio 2.5 then 0.47
  else if Qle_bool rr_ratio 3.0 then 0.45
  else 0.40.

Definition _estimate_win_probability (setup : TradeSetup.t) (context : EVContext) : Q :=
  let scores := [_get_pattern_probability setup context;
                 _calculate_technical_score setup context;
                 _calculate_trend_alignment setup context;
                 _adjust_for_risk_reward (risk_reward_ratio setup)] in
  let weights := [0.30; 0.30; 0.25; 0.15] in
  let final_probability :=
    fold_left (fun acc sw => acc + fst sw * snd sw) (combine scores weights) 0 in
  py_max 0.20 (py_min 0.80 final_probability).

Definition _calculate_kelly (win_prob rr_ratio : Q) : Q :=
  if Qle_bool rr_ratio 0 then 0
  else
    let kelly := win_prob - ((1 - win_prob) / rr_ratio) in
    let half_kelly := kelly / 2 in
    py_max 0 (py_min MAX_KELLY half_kelly).

Definition _make_decision (ev win_prob rr_ratio : Q) (context : EVContext)
  : Recommendation * Confidence * list EVReason :=
  if Qltb ev 0 then
    (SKIP, HIGH, [EVR_NegativeEV ev; EVR_Text "   → 이 거래는 수학적으로 불리합니다"])
  else if Qltb ev MIN_EV then
    (SKIP, MEDIUM, [EVR_LowEV ev; EVR_Text "   → 수수료와 슬리피지 고려 시 손실 가능"])
  else if Qltb rr_ratio 1.0 then
    (SKIP, HIGH, [EVR_BadRR rr_ratio; EVR_Text "   → 손절가를 좁히거나 목표가를 높이세요"])
  else if Qltb rr_ratio MIN_RISK_REWARD then
    (WAIT, MEDIUM, [EVR_LowRR rr_ratio;
                    EVR_Text "   → 더 좋은 진입점을 기다리거나 목표가 조정 필요"])
  else if Qltb win_prob MIN_WIN_PROB then
    (WAIT, LOW, [EVR_LowWinProb win_prob;
                 EVR_Text "   → 기술적 조건이 더 유리해질 때 재검토"])
  else
    let volatility := get (ctx_volatility_regime context) "normal" in
    let reasoning :=
      if String.eqb volatility "extreme"
      then [EVR_Text "⚠️ 극심한 변동성 - 포지션 크기 50% 축소 권장"] else [] in
    let reasoning :=
      app reasoning [EVR_PositiveEV ev; EVR_GoodRR rr_ratio; EVR_WinProb win_prob] in
    let '(confidence, line) :=
      if Qltb 2.0 ev && Qle_bool 2.0 rr_ratio && Qle_bool 0.55 win_prob then
        (HIGH, "📊 신뢰도: 높음 - 우수한 기회")
      else if Qltb 1.0 ev && Qle_bool 1.5 rr_ratio && Qle_bool 0.45 win_prob then
        (MEDIUM, "📊 신뢰도: 보통 - 양호한 기회")
      else (LOW, "📊 신뢰도: 낮음 - 소규모 포지션 권장") in
    (ENTER, confidence, app reasoning [EVR_Text line]).

(** [analyze]: returns the setup as mutated by [calculate_risk_reward]
    (the caller's object) together with the analysis. *)
Definition analyze (setup : TradeSetup.t) (market_context : option EVContext)
  : TradeSetup.t * EVAnalysis.t :=
  let context := get market_context empty_context in
  let setup := calculate_risk_reward setup in
  let win_probability := _estimate_win_probability setup context in
  let expected_value :=
    (win_probability * reward_percent setup) -
    ((1 - win_probability) * risk_percent setup) in
  let kelly := _calculate_kelly win_probability (risk_reward_ratio setup) in
  let '(recommendation, confidence, reasoning) :=
    _make_decision expected_value win_probability (risk_reward_ratio setup) context in
  let optimal_position := py_min (kelly * 100) 5.0 in
  (setup,
   EVAnalysis.mk
     (py_round 2 expected_value)
     (py_round 3 win_probability)
     (py_round 2 (risk_reward_ratio setup))
     (py_round 4 kelly)
     recommendation confidence reasoning
     (py_round 2 (risk_percent setup))
     (py_round 2 (reward_percent setup))
     (py_round 2 optimal_position)).

(** The dict returned by [quick_evaluate]. *)
Record QuickResult := mkQuick {
  q_ev : Q;
  q_rr : Q;
  q_win_prob : Q;
  q_kelly : Q;
  q_verdict : string;
  q_confidence : string
}.

Definition verdict_map (r : Recommendation) : string :=
  match r with
  | ENTER => "✅ 진입 가능"
  | SKIP => "❌ 진입 금지"
  | WAIT => "⏸️ 조건 대기"
  end.

Definition quick_evaluate (entry_price stop_loss take_profit : Q)
  (side symbol : string) : QuickResult :=
  let setup := TradeSetup.make symbol side entry_price stop_loss take_profit in
  let analysis := snd (analyze setup None) in
  mkQuick (EVAnalysis.expected_value analysis)
          (EVAnalysis.risk_reward_ratio analysis)
          (EVAnalysis.win_probability analysis)
          (EVAnalysis.kelly_fraction analysis)
          (verdict_map (EVAnalysis.recommendation analysis))
          (Confidence_value (EVAnalysis.confidence analysis)).
End ExpectedValueCalculator.

(** The module-level [calculate_position_size] of expected_value.py; the
    returned dict {position_size, quantity, risk_amount}. *)
Record PositionSize := mkPositionSize {
  position_size : Q;
  quantity : Q;
  risk_amount : Q
}.

Definition calculate_position_size (capital risk_per_trade entry_price stop_loss : Q)
  : PositionSize :=
  let risk_amount := capital * risk_per_trade in
  let price_risk := Qabs (entry_price - stop_loss) in
  if Qle_bool price_risk 0 then mkPositionSize 0 0 0
  else
    let quantity := risk_amount / price_risk in
    let position_size := quantity * entry_price in
    mkPositionSize (py_round 0 position_size) (py_round 8 quantity) (py_round 0 risk_amount).

(** ** market_analyzer.py *)

Inductive MarketRegime :=
  | STRONG_BULL | BULL | NEUTRAL | BEAR | STRONG_BEAR | HIGH_VOLATILITY.

Inductive TrendStrength := STRONG | MODERATE | WEAK | NO_TREND.

Definition TrendStrength_value (t : TrendStrength) : string :=
  match t with
  | STRONG => "강함" | MODERATE => "보통" | WEAK => "약함" | NO_TREND => "추세 없음"
  end.

(** Reasoning lines of [_recommend_strategy] and [_get_default_context]. *)
Inductive MarketReason :=
  | MR_Volatility (vol_regime : string)       (* "   변동성: {vol_regime}" *)
  | MR_Strength (s : TrendStrength)           (* "   추세 강도: {trend_str.value}" *)
  | MR_Scores (bull bear : Q)                 (* "   매수 점수: {bull:.0f}, 매도 점수: {bear:.0f}" *)
  | MR_UpTrend (s : TrendStrength)            (* "✅ 상승 추세 확인 (강도: ...)" *)
  | MR_BullScore (bull : Q)                   (* "✅ 매수 유리 점수: {bull:.0f}/100" *)
  | MR_NearSupport (d : Q)                    (* "✅ 지지선 근처 ({d:.1f}% 위)" *)
  | MR_SupportDistance (d : Q)                (* "ℹ️ 지지선까지 {d:.1f}% - 눌림목 대기 고려" *)
  | MR_DownTrend (s : TrendStrength)          (* "✅ 하락 추세 확인 (강도: ...)" *)
  | MR_BearScore (bear : Q)                   (* "✅ 매도 유리 점수: {bear:.0f}/100" *)
  | MR_NearResistance (d : Q)                 (* "✅ 저항선 근처 ({d:.1f}% 아래)" *)
  | MR_BullGap (g : Q)                        (* "📈 매수 우위 (점수 차: {g:.0f})" *)
  | MR_BearGap (g : Q)                        (* "📉 매도 우위 (점수 차: {g:.0f})" *)
  | MR_Text (s : string).                     (* constant lines *)

Module MarketContext.
Record t := mk {
  regime : MarketRegime;
  trend_direction : string;
  trend_strength : TrendStrength;
  trend_strength_value : string;
  rsi : Q;
  rsi_signal : string;
  macd_signal : string;
  ma_alignment : string;
  nearest_support : Q;
  nearest_resistance : Q;
  distance_to_support_pct : Q;
  distance_to_resistance_pct : Q;
  atr_percent : Q;
  volatility_regime : string;
  volume_trend : string;
  volume_anomaly : bool;
  bullish_score : Q;
  bearish_score : Q;
  recommended_strategy : string;
  reasoning : list MarketReason;
  current_price : Q
}.

(** [to_dict()] as [ExpectedValueCalculator] reads it: the keys of the
    dict that the calculator looks up (every one is present). *)
Definition to_dict (m : t) : EVContext :=
  mkEVContext (Some (rsi m)) (Some (macd_signal m)) (Some (ma_alignment m))
    (Some (trend_direction m)) (Some (TrendStrength_value (trend_strength m)))
    (Some (SVStr (trend_strength_value m))) (Some (distance_to_support_pct m))
    (Some (distance_to_resistance_pct m)) (Some (volatility_regime m)).
End MarketContext.

(** One OHLCV row of the input DataFrame. *)
Record Candle := mkCandle {
  open_ : Q; high : Q; low : Q; close : Q; volume : Q
}.

(** One row of the DataFrame after [_calculate_indicators]; a rolling
    column is [None] (NaN) until its window is full.  The Bollinger
    columns are not modelled: [analyze] never reads them. *)
Record Row := mkRow {
  r_open : Q; r_high : Q; r_low : Q; r_close : Q; r_volume : Q;
  r_SMA20 : option Q; r_SMA50 : option Q; r_SMA200 : option Q;
  r_EMA12 : Q; r_EMA26 : Q;
  r_RSI : Q;
  r_MACD : Q; r_MACD_Signal : Q; r_MACD_Hist : Q;
  r_ATR : option Q;
  r_Vol_SMA : option Q
}.

Definition sumQ (xs : list Q) : Q := fold_left Qplus xs 0.

(** [series.rolling(k).mean()] *)
Definition rolling_mean (k : nat) (xs : list Q) : list (option Q) :=
  map (fun i =>
         if (k <=? S i)%nat
         then Some (sumQ (firstn k (skipn (S i - k) xs)) / inject_Z (Z.of_nat k))
         else None)
      (seq 0 (length xs)).

Fixpoint ewm_from (alpha prev : Q) (xs : list Q) : list Q :=
  match xs with
  | [] => []
  | x :: r => let y := (1 - alpha) * prev + alpha * x in y :: ewm_from alpha y r
  end.

(** [series.ewm(span=span, adjust=False).mean()] *)
Definition ewm (span : Z) (xs : list Q) : list Q :=
  let alpha := 2 / inject_Z (span + 1) in
  match xs with [] => [] | x :: r => x :: ewm_from alpha x r end.

Fixpoint diff_from (prev : Q) (xs : list Q) : list Q :=
  match xs with [] => [] | x :: r => (x - prev) :: diff_from x r end.

(** [series.diff()]: NaN in the first row. *)
Definition diff (xs : list Q) : list (option Q) :=
  match xs with
  | [] => []
  | x :: r => None :: map Some (diff_from x r)
  end.

Module MarketAnalyzer.

Definition _calculate_indicators (df : list Candle) : list Row :=
  let n := length df in
  let closes := map close df in
  let volumes := map volume df in
  let sma20 := rolling_mean 20 closes in
  let sma50 := rolling_mean 50 closes in
  let sma200 := rolling_mean (Nat.min 200 n) closes in
  let ema12 := ewm 12 closes in
  let ema26 := ewm 26 closes in
  (* RSI: NaN deltas fail both [where] tests and become 0 *)
  let delta := diff closes in
  let gain := map (fun d => match d with Some v => if Qltb 0 v then v else 0 | None => 0 end) delta in
  let loss := map (fun d => match d with Some v => if Qltb v 0 then - v else 0 | None => 0 end) delta in
  let avg_gain := rolling_mean 14 gain in
  let avg_loss := rolling_mean 14 loss in
  let rsi := map (fun i =>
                    match nth i avg_gain None, nth i avg_loss None with
                    | Some g, Some l =>
                        (* [loss.replace(0, np.nan)] then [fillna(50)] *)
                        if Qeq_bool l 0 then 50 else 100 - (100 / (1 + g / l))
                    | _, _ => 50
                    end) (seq 0 n) in
  let macd := map (fun p => fst p - snd p) (combine ema12 ema26) in
  let macd_signal := ewm 9 macd in
  let macd_hist := map (fun p => fst p - snd p) (combine macd macd_signal) in
  (* true range; [max(axis=1)] skips the NaN of the first row *)
  let tr := map (fun i =>
                   let c := nth i df (mkCandle 0 0 0 0 0) in
                   let high_low := high c - low c in
                   match i with
                   | O => high_low
                   | S j =>
                       let prev_close := close (nth j df (mkCandle 0 0 0 0 0)) in
                       py_max (py_max high_low (Qabs (high c - prev_close)))
                              (Qabs (low c - prev_close))
                   end) (seq 0 n) in
  let atr := rolling_mean 14 tr in
  let vol_sma := rolling_mean 20 volumes in
  map (fun i =>
         let c := nth i df (mkCandle 0 0 0 0 0) in
         mkRow (open_ c) (high c) (low c) (close c) (volume c)
               (nth i sma20 None) (nth i sma50 None) (nth i sma200 None)
               (nth i ema12 0) (nth i ema26 0) (nth i rsi 50)
               (nth i macd 0) (nth i macd_signal 0) (nth i macd_hist 0)
               (nth i atr None) (nth i vol_sma None))
      (seq 0 n).

Definition default_row : Row :=
  mkRow 0 0 0 0 0 None None None 0 0 50 0 0 0 None None.

(** [df.iloc[-1]] *)
Definition latest_row (df : list Row) : Row := last df default_row.

(** A comparison with NaN is false. *)
Definition opt_gt (x : Q) (o : option Q) : bool :=
  match o with Some v => Qltb v x | None => false end.

Definition _determine_regime (df : list Row) : MarketRegime :=
  let latest := latest_row df in
  let price := r_close latest in
  let '(above_200, distance_200) :=
    match r_SMA200 latest with
    | Some sma200 =>
        if Qltb 0 sma200 then (Qltb sma200 price, (price - sma200) / sma200 * 100)
        else (opt_gt price (r_SMA50 latest), 0)
    | None => (opt_gt price (r_SMA50 latest), 0)
    end in
  let rsi := r_RSI latest in
  let atr_pct :=
    match r_ATR latest with
    | Some atr => if Qltb 0 price then (atr / price) * 100 else 2
    | None => 2
    end in
  if Qltb 5 atr_pct then HIGH_VOLATILITY
  else if above_200 && Qltb 15 distance_200 && Qltb 55 rsi then STRONG_BULL
  else if above_200 && Qltb 0 distance_200 then BULL
  else if negb above_200 && Qltb distance_200 (-15) && Qltb rsi 45 then STRONG_BEAR
  else if negb above_200 then BEAR
  else NEUTRAL.

(** [df.tail(k)] *)
Definition tail {A : Type} (k : nat) (xs : list A) : list A :=
  skipn (length xs - k) xs.

Definition _analyze_trend (df : list Row) : string * TrendStrength :=
  let latest := latest_row df in
  let price := r_close latest in
  let direction :=
    match r_SMA20 latest, r_SMA50 latest with
    | Some sma20, Some sma50 =>
        if Qltb sma20 price && Qltb sma50 sma20 then "up"
        else if Qltb price sma20 && Qltb sma20 sma50 then "down"
        else "sideways"
    | _, _ => "sideways"
    end in
  let strength :=
    if (20 <=? length df)%nat then
      let recent := tail 20 df in
      let up_candles := length (filter (fun r => Qltb (r_open r) (r_close r)) recent) in
      let down_candles := (20 - up_candles)%nat in
      let ratio := inject_Z (Z.of_nat (Nat.max up_candles down_candles)) / 20 in
      if Qltb 0.7 ratio then STRONG
      else if Qltb 0.55 ratio then MODERATE
      else if Qltb 0.45 ratio then WEAK
      else NO_TREND
    else WEAK in
  (direction, strength).

Definition _analyze_macd (df : list Row) : string :=
  if (length df <? 2)%nat then "neutral"
  else
    let latest := latest_row df in
    let prev := nth (length df - 2) df default_row in
    let macd := r_MACD latest in
    let signal := r_MACD_Signal latest in
    let hist := r_MACD_Hist latest in
    let prev_hist := r_MACD_Hist prev in
    if Qltb signal macd && Qle_bool (r_MACD prev) (r_MACD_Signal prev) then "bullish"
    else if Qltb macd signal && Qle_bool (r_MACD_Signal prev) (r_MACD prev) then "bearish"
    else if Qltb 0 hist && Qltb prev_hist hist then "bullish"
    else if Qltb hist 0 && Qltb hist prev_hist then "bearish"
    else "neutral".

(** Both inner tests on SMA200 return the same label as their
    fall-through, so they are not repeated here. *)
Definition _analyze_ma_alignment (df : list Row) : string :=
  let latest := latest_row df in
  let price := r_close latest in
  match r_SMA20 latest, r_SMA50 latest with
  | Some sma20, Some sma50 =>
      if Qltb sma20 price && Qltb sma50 sma20 then "bullish"
      else if Qltb price sma20 && Qltb sma20 sma50 then "bearish"
      else "neutral"
  | _, _ => "neutral"
  end.

Definition list_max (d : Q) (xs : list Q) : Q :=
  match xs with [] => d | x :: r => fold_left py_max r x end.
Definition list_min (d : Q) (xs : list Q) : Q :=
  match xs with [] => d | x :: r => fold_left py_min r x end.

Definition _find_sr_levels (df : list Row) : Q * Q :=
  if (length df <? 20)%nat then
    let latest := latest_row df in (r_low latest, r_high latest)
  else
    let recent := tail 50 df in
    let current_price := r_close (latest_row df) in
    let lows := map r_low recent in
    let highs := map r_high recent in
    let supports := filter (fun l => Qltb l current_price) lows in
    let nearest_support :=
      match supports with [] => list_min 0 lows | _ => list_max 0 supports end in
    let resistances := filter (fun h => Qltb current_price h) highs in
    let nearest_resistance :=
      match resistances with [] => list_max 0 highs | _ => list_min 0 resistances end in
    (nearest_support, nearest_resistance).

Definition _classify_volatility (atr_percent : Q) : string :=
  if Qltb atr_percent 1.5 then "low"
  else if Qltb atr_percent 3 then "normal"
  else if Qltb atr_percent 5 then "high"
  else "extreme".

(** Slope of the least-squares line of [np.polyfit(xs, ys, 1)]. *)
Definition polyfit_slope (xs ys : list Q) : Q :=
  let n := inject_Z (Z.of_nat (length xs)) in
  let mx := sumQ xs / n in
  let my := sumQ ys / n in
  sumQ (map (fun p => (fst p - mx) * (snd p - my)) (combine xs ys)) /
  sumQ (map (fun x => (x - mx) * (x - mx)) xs).

Definition _analyze_volume (df : list Row) : string * bool :=
  if (length df <? 20)%nat then ("stable", false)
  else
    let latest := latest_row df in
    let current_vol := r_volume latest in
    match r_Vol_SMA latest with
    | None => ("stable", false)
    | Some vol_sma =>
        if Qeq_bool vol_sma 0 then ("stable", false)
        else
          let recent_vols := map r_volume (tail 5 df) in
          let vol_trend :=
            if (5 <=? length recent_vols)%nat then
              let trend := polyfit_slope [0; 1; 2; 3; 4] recent_vols in
              if Qltb (vol_sma * 0.1) trend then "increasing"
              else if Qltb trend (- vol_sma * 0.1) then "decreasing"
              else "stable"
            else "stable" in
          (vol_trend, Qltb (vol_sma * 2) current_vol)
    end.

Definition _calculate_bias_scores (rsi : Q) (macd_signal ma_alignment trend_direction
  volume_trend : string) : Q * Q :=
  let bull := 50 in
  let bear := 50 in
  let '(bull, bear) :=
    if Qltb rsi 30 then (bull + 20, bear - 10)
    else if Qltb rsi 40 then (bull + 10, bear - 5)
    else if Qltb 70 rsi then (bull - 10, bear + 20)
    else if Qltb 60 rsi then (bull - 5, bear + 10)
    else (bull, bear) in
  let '(bull, bear) :=
    if String.eqb macd_signal "bullish" then (bull + 15, bear - 5)
    else if String.eqb macd_signal "bearish" then (bull - 5, bear + 15)
    else (bull, bear) in
  let '(bull, bear) :=
    if String.eqb ma_alignment "bullish" then (bull + 15, bear - 10)
    else if String.eqb ma_alignment "bearish" then (bull - 10, bear + 15)
    else (bull, bear) in
  let '(bull, bear) :=
    if String.eqb trend_direction "up" then (bull + 10, bear)
    else if String.eqb trend_direction "down" then (bull, bear + 10)
    else (bull, bear) in
  let '(bull, bear) :=
    if String.eqb volume_trend "increasing" then
      if String.eqb trend_direction "up" then (bull + 5, bear)
      else if String.eqb trend_direction "down" then (bull, bear + 5)
      else (bull, bear)
    else (bull, bear) in
  (py_max 0 (py_min 100 bull), py_max 0 (py_min 100 bear)).

Definition _recommend_strategy (regime : MarketRegime) (trend_dir : string)
  (trend_str : TrendStrength) (bull_score bear_score price support resistance : Q)
  (vol_regime : string) : string * list MarketReason :=
  if match regime with HIGH_VOLATILITY => true | _ => false end
     || String.eqb vol_regime "extreme" then
    ("wait", [MR_Text "⚠️ 고변동성 시장 - 포지션 축소 또는 관망 권장";
              MR_Volatility vol_regime])
  else if match trend_str with WEAK | NO_TREND => true | _ => false end then
    ("wait", [MR_Text "⏸️ 추세 불분명 - 명확한 방향 확인까지 대기";
              MR_Strength trend_str; MR_Scores bull_score bear_score])
  else if String.eqb trend_dir "up" && Qltb 60 bull_score then
    let dist_to_support := if Qltb 0 price then ((price - support) / price) * 100 else 100 in
    ("long", [MR_UpTrend trend_str; MR_BullScore bull_score;
              if Qltb dist_to_support 3 then MR_NearSupport dist_to_support
              else MR_SupportDistance dist_to_support])
  else if String.eqb trend_dir "down" && Qltb 60 bear_score then
    let dist_to_resistance :=
      if Qltb 0 price then ((resistance - price) / price) * 100 else 100 in
    ("short", app [MR_DownTrend trend_str; MR_BearScore bear_score]
                  (if Qltb dist_to_resistance 3
                   then [MR_NearResistance dist_to_resistance] else []))
  else if Qltb 20 (bull_score - bear_score) then
    ("long", [MR_BullGap (bull_score - bear_score)])
  else if Qltb 20 (bear_score - bull_score) then
    ("short", [MR_BearGap (bear_score - bull_score)])
  else
    ("wait", [MR_Text "ℹ️ 조건 불충족 - 더 좋은 기회 대기";
              MR_Scores bull_score bear_score]).

Definition _get_default_context : MarketContext.t :=
  MarketContext.mk NEUTRAL "sideways" NO_TREND "weak" 50 "neutral" "neutral" "neutral"
    0 0 0 0 2 "normal" "stable" false 50 50 "wait"
    [MR_Text "데이터 부족 - 분석 불가"] 0.

(** [analyze(df)]; prices are assumed non-zero where the source divides
    by them (division by zero is 0 in [Q]). *)
Definition analyze (candles : list Candle) : MarketContext.t :=
  if (length candles <? 50)%nat then _get_default_context
  else
    let df := _calculate_indicators candles in
    let latest := latest_row df in
    let current_price := r_close latest in
    let regime := _determine_regime df in
    let '(trend_dir, trend_str) := _analyze_trend df in
    let rsi := r_RSI latest in
    let rsi_signal :=
      if Qltb rsi 30 then "oversold" else if Qltb 70 rsi then "overbought" else "neutral" in
    let macd_signal := _analyze_macd df in
    let ma_alignment := _analyze_ma_alignment df in
    let '(support, resistance) := _find_sr_levels df in
    let dist_support :=
      if Qltb 0 support then ((current_price - support) / current_price) * 100 else 100 in
    let dist_resistance :=
      if Qltb 0 resistance then ((resistance - current_price) / current_price) * 100
      else 100 in
    let atr_pct :=
      match r_ATR latest with
      | Some atr => if Qltb 0 current_price then (atr / current_price) * 100 else 2
      | None => 2
      end in
    let vol_regime := _classify_volatility atr_pct in
    let '(vol_trend, vol_anomaly) := _analyze_volume df in
    let '(bull_score, bear_score) :=
      _calculate_bias_scores rsi macd_signal ma_alignment trend_dir vol_trend in
    let '(strategy, reasoning) :=
      _recommend_strategy regime trend_dir trend_str bull_score bear_score
        current_price support resistance vol_regime in
    MarketContext.mk regime trend_dir trend_str (TrendStrength_value trend_str)
      (py_round 1 rsi) rsi_signal macd_signal ma_alignment
      (py_round 0 support) (py_round 0 resistance)
      (py_round 2 dist_support) (py_round 2 dist_resistance)
      (py_round 2 atr_pct) vol_regime vol_trend vol_anomaly
      (py_round 1 bull_score) (py_round 1 bear_score)
      strategy reasoning (py_round 0 current_price).

End MarketAnalyzer.

(** ** emotion_filter.py *)

(** Regular expressions of the pattern lists.  Every pattern of the
    source is a literal, or literals joined by [.*]; a pattern is the list
    of its literal pieces.  [.] does not match a newline. *)
Definition Pattern := list string.

Fixpoint str_drop (n : nat) (s : string) : string :=
  match n, s with
  | O, _ => s
  | S m, EmptyString => EmptyString
  | S m, String _ s' => str_drop m s'
  end.

Definition newline : Ascii.ascii := Ascii.ascii_of_nat 10.

(** The pieces after the first one: each must start later on the same
    line ([.*] in between). *)
Fixpoint match_rest (pieces : list string) (t : string) : bool :=
  match pieces with
  | [] => true
  | p :: rest =>
      let fix go (u : string) : bool :=
        (String.prefix p u && match_rest rest (str_drop (String.length p) u))
        || match u with
           | EmptyString => false
           | String c u' => negb (Ascii.eqb c newline) && go u'
           end in
      go t
  end.

(** [re.search(pattern, text) is not None] *)
Definition re_search (pat : Pattern) (text : string) : bool :=
  match pat with
  | [] => true
  | p :: rest =>
      let fix go (u : string) : bool :=
        (String.prefix p u && match_rest rest (str_drop (String.length p) u))
        || match u with EmptyString => false | String _ u' => go u' end in
      go text
  end.

(** [str.lower()] on the ASCII letters; the Korean syllables of the
    patterns have no case. *)
Definition lower_ascii (c : Ascii.ascii) : Ascii.ascii :=
  let n := Ascii.nat_of_ascii c in
  if (65 <=? n)%nat && (n <=? 90)%nat then Ascii.ascii_of_nat (n + 32) else c.

Fixpoint py_lower (s : string) : string :=
  match s with
  | EmptyString => EmptyString
  | String c s' => String (lower_ascii c) (py_lower s')
  end.

Module EmotionFilter.

Definition FOMO_PATTERNS : list Pattern :=
  [["지금 안 사면"]; ["놓치"]; ["늦기 전에"]; ["다들 사"]; ["급등"]; ["폭등"];
   ["더 오르기 전에"]; ["올라가는데"]; ["달리는데"]; ["펌핑"]; ["미친듯이 오르"];
   ["지금 들어가야"]; ["기회를 놓"]; ["빨리 사"]; ["얼른 사"]; ["지금이 마지막"];
   ["못 타"]; ["뒤늦게"]].

Definition FEAR_PATTERNS : list Pattern :=
  [["폭락"]; ["급락"]; ["망했"]; ["다 팔아"]; ["전부 정리"]; ["더 떨어지기 전에"];
   ["물렸"]; ["어떡해"]; ["손절해야"]; ["다 날아가"]; ["끝났"]; ["바닥이 없"];
   ["무섭"]; ["공포"]; ["패닉"]; ["지옥"]; ["나락"]].

Definition REVENGE_PATTERNS : list Pattern :=
  [["복구"]; ["원금 회복"]; ["만회"]; ["본전"]; ["다시 들어가"]; ["손실 메꾸"];
   ["잃은 거 되찾"]; ["방금 손절"; "다시"]; ["털리"; "재진입"]; ["원금으로"];
   ["찾아야"]].

Definition OVERCONFIDENCE_PATTERNS : list Pattern :=
  [["올인"]; ["전재산"]; ["몰빵"]; ["레버리지"]; ["10배"]; ["20배"]; ["100배"];
   ["확실"]; ["무조건"]; ["절대"]; ["100%"]; ["반드시"]; ["틀림없"];
   ["무조건 오른다"]; ["무조건 간다"]].

Definition GREED_PATTERNS : list Pattern :=
  [["10배"]; ["100배"]; ["대박"]; ["한방"]; ["인생역전"]; ["부자"]; ["떡상"];
   ["달나라"]; ["억만장자"]; ["x100"]; ["x10"]; ["로또"]].

Definition SUNK_COST_PATTERNS : list Pattern :=
  [["물타기"]; ["추가 매수"; "-"]; ["평단"; "낮추"]; ["물렸는데"; "더 사"];
   ["손실"; "추가"]; ["평균 단가"]; ["비중 늘"]].

(** [r"(레버리지|10배|20배|100배)"] *)
Definition LEVERAGE_PATTERNS : list Pattern :=
  [["레버리지"]; ["10배"]; ["20배"]; ["100배"]].

Definition _detect_pattern (text : string) (patterns : list Pattern) : Q :=
  let matches := length (filter (fun p => re_search p text) patterns) in
  py_min 1.0 (inject_Z (Z.of_nat matches) / 3).

(** [recent_market_move] ({"change_24h": float}) and [last_trade_result]
    ({"pnl": float, "pnl_pct": float}); a key may be absent. *)
Record MarketMove := mkMove { change_24h : option Q }.
Record TradeResult := mkTradeResult { pnl : option Q; pnl_pct : option Q }.

(** Warning lines; f-strings keep their argument. *)
Inductive Warning :=
  | W_FomoSurge (change : Q)      (* "🚨 FOMO 감지: 이미 24시간 동안 {change:.1f}% 상승했습니다. ..." *)
  | W_FearDrop (change : Q)       (* "   실제로 {abs(change):.1f}% 하락 중이지만, ..." *)
  | W_RevengeLoss (pnl : Q)       (* "🚨 복수 매매 감지: 직전 거래에서 {abs(pnl):.1f}% 손실이 ..." *)
  | W_RevengeTime (hours : Q)     (* "   마지막 거래 후 {hours:.1f}시간밖에 지나지 않았습니다. ..." *)
  | W_Text (s : string).          (* constant lines *)

(** The strings returned by [_generate_alternative_advice], in the
    order of its branches. *)
Inductive Advice :=
  | ADV_FomoSurge | ADV_Fomo | ADV_Fear | ADV_Revenge | ADV_Overconfidence
  | ADV_Greed | ADV_SunkCost | ADV_Composite | ADV_Default.

Record EmotionAnalysis := mkEmotionAnalysis {
  detected_emotions : list string;
  emotion_score : Q;
  is_rational : bool;
  warnings : list Warning;
  should_block : bool;
  alternative_advice : Advice;
  emotion_details : list (string * Q)
}.

Definition change_of (m : option MarketMove) : Q :=
  match m with Some mv => get (change_24h mv) 0 | None => 0 end.

Definition _generate_alternative_advice (emotions : list string) (score : Q)
  (recent_market : option MarketMove) : Advice :=
  let has e := existsb (String.eqb e) emotions in
  if has "fomo" then
    if Qltb 10 (change_of recent_market) then ADV_FomoSurge else ADV_Fomo
  else if has "fear" then ADV_Fear
  else if has "revenge" then ADV_Revenge
  else if has "overconfidence" then ADV_Overconfidence
  else if has "greed" then ADV_Greed
  else if has "sunk_cost" then ADV_SunkCost
  else if Qltb 0.5 score then ADV_Composite
  else ADV_Default.

(** [analyze_request]; [time_since_last_trade] is a timedelta in
    seconds ([None] when not given; a zero timedelta is falsy). *)
Definition analyze_request (user_message : string)
  (recent_market_move : option MarketMove) (last_trade_result : option TradeResult)
  (time_since_last_trade : option Q) : EmotionAnalysis :=
  let message_lower := py_lower user_message in
  let change := change_of recent_market_move in
  (* 1. FOMO *)
  let fomo_score := _detect_pattern message_lower FOMO_PATTERNS in
  let '(detected, details, total, warns) :=
    if Qltb 0 fomo_score then
      let '(w, boost) :=
        if Qltb 10 change then ([W_FomoSurge change], 0.2)
        else if Qltb 5 change then
          ([W_Text "⚠️ FOMO 주의: 최근 급등 후 진입은 위험합니다. 조정을 기다리세요."], 0)
        else ([], 0) in
      (["fomo"], [("fomo", fomo_score)], 0 + fomo_score * 0.25 + boost, w)
    else ([], [], 0, []) in
  (* 2. fear *)
  let fear_score := _detect_pattern message_lower FEAR_PATTERNS in
  let '(detected, details, total, warns) :=
    if Qltb 0 fear_score then
      (app detected ["fear"], app details [("fear", fear_score)],
       total + fear_score * 0.25,
       app warns
         (W_Text "🚨 공포 매도 감지: 급락 시 패닉셀은 최악의 타이밍인 경우가 많습니다. 원래 계획했던 손절가를 확인하세요."
          :: (if Qltb change (-10) then [W_FearDrop (Qabs change)] else [])))
    else (detected, details, total, warns) in
  (* 3. revenge *)
  let revenge_score := _detect_pattern message_lower REVENGE_PATTERNS in
  let '(detected, details, total, warns) :=
    if Qltb 0 revenge_score then
      let '(w1, b1) :=
        match last_trade_result with
        | Some r =>
            if Qltb (get (pnl r) 0) 0 then
              ([W_RevengeLoss (Qabs (get (pnl_pct r) (get (pnl r) 0)))], 0.25)
            else ([], 0)
        | None => ([], 0)
        end in
      let '(w2, b2) :=
        match time_since_last_trade with
        | Some secs =>
            if negb (Qeq_bool secs 0) && Qltb secs (4 * 3600)
            then ([W_RevengeTime (secs / 3600)], 0.1) else ([], 0)
        | None => ([], 0)
        end in
      (app detected ["revenge"], app details [("revenge", revenge_score)],
       total + revenge_score * 0.30 + b1 + b2, app warns (app w1 w2))
    else (detected, details, total, warns) in
  (* 4. overconfidence *)
  let overconf_score := _detect_pattern message_lower OVERCONFIDENCE_PATTERNS in
  let '(detected, details, total, warns) :=
    if Qltb 0 overconf_score then
      let lev := existsb (fun p => re_search p message_lower) LEVERAGE_PATTERNS in
      (app detected ["overconfidence"], app details [("overconfidence", overconf_score)],
       total + overconf_score * 0.35 + (if lev then 0.2 else 0),
       app warns
         (W_Text "🚨 과잉 확신 감지: '확실한' 거래는 없습니다. 자본의 2% 이상 리스크는 절대 권장하지 않습니다."
          :: (if lev then [W_Text "   ⛔ 레버리지는 손실을 극대화합니다. 전문가도 레버리지로 파산합니다."]
              else [])))
    else (detected, details, total, warns) in
  (* 5. greed *)
  let greed_score := _detect_pattern message_lower GREED_PATTERNS in
  let '(detected, details, total, warns) :=
    if Qltb 0 greed_score then
      (app detected ["greed"], app details [("greed", greed_score)],
       total + greed_score * 0.20,
       app warns [W_Text "⚠️ 탐욕 감지: 비현실적 수익 기대는 과도한 리스크로 이어집니다. 현실적인 목표(월 3-5%)를 설정하세요."])
    else (detected, details, total, warns) in
  (* 6. sunk cost *)
  let sunk_cost_score := _detect_pattern message_lower SUNK_COST_PATTERNS in
  let '(detected, details, total, warns) :=
    if Qltb 0 sunk_cost_score then
      (app detected ["sunk_cost"], app details [("sunk_cost", sunk_cost_score)],
       total + sunk_cost_score * 0.20,
       app warns [W_Text "⚠️ 물타기 주의: 손실 중인 포지션에 추가 자금을 투입하면 리스크가 배가됩니다. 손절 후 새로운 기회를 찾는 것이 낫습니다."])
    else (detected, details, total, warns) in
  let emotion_score := py_min 1.0 total in
  let is_rational := Qltb emotion_score 0.25 in
  let should_block := Qle_bool 0.6 emotion_score in
  let alternative :=
    _generate_alternative_advice detected emotion_score recent_market_move in
  mkEmotionAnalysis detected (py_round 2 emotion_score) is_rational warns
    should_block alternative details.


(** The text of a warning line. *)
Definition warning_text (w : Warning) : string :=
  match w with
  | W_FomoSurge change =>
      "🚨 FOMO 감지: 이미 24시간 동안 " ++ fmt_fixed 1 change ++
      "% 상승했습니다. 고점 매수 위험이 매우 높습니다."
  | W_FearDrop change =>
      "   실제로 " ++ fmt_fixed 1 change ++ "% 하락 중이지만, 바닥에서 매도하면 손실이 확정됩니다."
  | W_RevengeLoss pnl =>
      "🚨 복수 매매 감지: 직전 거래에서 " ++ fmt_fixed 1 pnl ++
      "% 손실이 있었습니다. 감정적 재진입은 손실을 키울 수 있습니다."
  | W_RevengeTime hours =>
      "   마지막 거래 후 " ++ fmt_fixed 1 hours ++
      "시간밖에 지나지 않았습니다. 최소 4시간 후에 다시 검토하세요."
  | W_Text s => s
  end%string.

(** The text returned by [_generate_alternative_advice]. *)
Definition advice_text (a : Advice) : string :=
  match a with
  | ADV_FomoSurge =>
      "💡 대안: 지금 진입하는 대신, RSI 50 이하로 조정 시 분할 매수를 설정하세요. 급등 후 진입보다 평균 수익률이 2배 높습니다. 구체적으로 현재가 대비 -5%, -10% 지점에 지정가 매수를 걸어두세요."
  | ADV_Fomo =>
      "💡 대안: 지금 진입하는 대신, 다음 조정(-5~10%) 시 분할 매수를 설정하세요. 급등 후 진입보다 평균 수익률이 2배 높습니다."
  | ADV_Fear =>
      "💡 대안: 전량 매도 대신, 50%만 정리하고 나머지는 원래 손절가까지 유지하세요. 급락 후 반등 시 기회를 보존할 수 있습니다. 또는 분할 청산하여 평균 매도가를 높이세요."
  | ADV_Revenge =>
      "💡 대안: 오늘은 거래를 쉬고, 내일 새로운 마음으로 시장을 보세요. 연속 손실 후 24시간 휴식은 승률을 15% 높입니다. 복수 매매의 승률은 통계적으로 35% 미만입니다."
  | ADV_Overconfidence =>
      "💡 대안: 확신이 클수록 포지션은 작게. 평소 사이즈의 50%로 시작하고, 수익이 나면 추가 진입하세요. '확실한' 거래에서 파산하는 경우가 많습니다. 최대 리스크는 자본의 2%로 제한하세요."
  | ADV_Greed =>
      "💡 대안: 현실적인 목표 수익률(월 3-5%)을 설정하세요. 10배, 100배를 노리다가 원금을 잃는 것보다 꾸준히 수익을 쌓는 것이 장기적으로 훨씬 낫습니다. 복리의 힘을 믿으세요."
  | ADV_SunkCost =>
      "💡 대안: 물타기 대신, 손절 후 새로운 기회를 찾으세요. 손실 중인 포지션에 추가 투자하면 리스크가 배가됩니다. 차라리 그 자금으로 더 좋은 셋업에 진입하는 것이 기대값이 높습니다."
  | ADV_Composite =>
      "💡 대안: 지금은 거래하기 적절하지 않은 심리 상태입니다. 30분간 차트를 끄고 다른 활동을 하세요. 그 후 냉정하게 기대값과 손익비를 계산한 뒤 결정하세요."
  | ADV_Default => "💡 객관적인 데이터를 기반으로 기대값을 계산한 뒤 결정하세요."
  end.

Definition emotion_names : list (string * string) :=
  [("fomo", "FOMO (놓칠까봐 두려움)"); ("fear", "공포 (손실 두려움)");
   ("revenge", "복수 매매"); ("overconfidence", "과잉 확신"); ("greed", "탐욕");
   ("sunk_cost", "매몰 비용 (물타기)")].

(** ["=" * 50] *)
Definition rule50 : string := String.concat "" (repeat "=" 50).

(** [report_lines] of [get_emotion_report] for a non-rational analysis. *)
Definition get_emotion_report_lines (analysis : EmotionAnalysis) : list string :=
  app [rule50; "⚠️ 감정적 거래 경고"; rule50; ""; "📊 감지된 감정:"]
  (app (map (fun emotion =>
              let name := get (assoc_get emotion emotion_names) emotion in
              let score := get (assoc_get emotion (emotion_details analysis)) 0 * 100 in
              ("   - " ++ name ++ ": " ++ fmt_fixed 0 score ++ "%")%string)
            (detected_emotions analysis))
  (app [""; ("📈 종합 감정 점수: " ++ fmt_fixed 0 (emotion_score analysis * 100) ++ "/100")%string;
        if should_block analysis then "❌ 거래 차단 권장" else "⚠️ 주의 필요"; ""]
  (app (match warnings analysis with
        | [] => []
        | ws => app ["⚠️ 경고:"] (app (map (fun w => ("   " ++ warning_text w)%string) ws) [""])
        end)
       ["💡 권장 조치:"; ("   " ++ advice_text (alternative_advice analysis))%string; ""; rule50]))).

Definition get_emotion_report (analysis : EmotionAnalysis) : string :=
  if is_rational analysis then "✅ 이성적인 요청으로 판단됩니다. 분석을 진행합니다."
  else String.concat (String newline EmptyString) (get_emotion_report_lines analysis).
End EmotionFilter.

(** [EmotionTracker]: the session state and its two methods. *)
Module EmotionTracker.
Import EmotionFilter.

Record HistoryEntry := mkEntry {
  timestamp : Q;               (* [datetime.now()] at the call *)
  emotions : list string;
  score : Q;
  blocked : bool
}.

Record t := mk { history : list HistoryEntry; consecutive_blocks : nat }.

Definition init : t := mk [] 0.

Definition record (now : Q) (analysis : EmotionAnalysis) (tr : t) : t :=
  let h := app (history tr)
             [mkEntry now (detected_emotions analysis) (emotion_score analysis)
                      (should_block analysis)] in
  if should_block analysis then mk h (S (consecutive_blocks tr))
  else mk h 0.

Definition should_force_break (tr : t) : bool := (3 <=? consecutive_blocks tr)%nat.

(** A session: the analyses recorded in order, each with its time. *)
Definition record_all (calls : list (Q * EmotionAnalysis)) (tr : t) : t :=
  fold_left (fun acc c => record (fst c) (snd c) acc) calls tr.

(** [emotion_counts[e] = emotion_counts.get(e, 0) + 1]: a new key goes
    last, an existing one keeps its place. *)
Fixpoint count_insert (e : string) (d : list (string * nat)) : list (string * nat) :=
  match d with
  | [] => [(e, 1%nat)]
  | (k, n) :: r => if String.eqb k e then (k, S n) :: r else (k, n) :: count_insert e r
  end.

(** [max(emotion_counts, key=emotion_counts.get)] on a non-empty dict:
    the first key of maximal count (a later key replaces the best one
    only if its count is strictly larger). *)
Fixpoint dict_argmax (best : string * nat) (d : list (string * nat)) : string :=
  match d with
  | [] => fst best
  | (k, n) :: r => if (snd best <? n)%nat then dict_argmax (k, n) r else dict_argmax best r
  end.

(** The dict of [get_session_summary] for a non-empty history. *)
Record SessionSummary := mkSummary {
  total_requests : nat;
  blocked_requests : nat;
  block_rate : Q;
  avg_emotion_score : Q;
  most_common_emotion : option string;
  emotion_distribution : list (string * nat)
}.

(** [None] is the dict [{"total_requests": 0}] of an empty history. *)
Definition get_session_summary (tr : t) : option SessionSummary :=
  match history tr with
  | [] => None
  | hs =>
      let total := length hs in
      let blocked := length (filter blocked hs) in
      let avg_score := sumQ (map score hs) / inject_Z (Z.of_nat total) in
      let all_emotions := flat_map emotions hs in
      let emotion_counts := fold_left (fun d e => count_insert e d) all_emotions [] in
      Some (mkSummary total blocked
              (inject_Z (Z.of_nat blocked) / inject_Z (Z.of_nat total) * 100)
              avg_score
              (match emotion_counts with
               | [] => None
               | kn :: r => Some (dict_argmax kn r)
               end)
              emotion_counts)
  end.
End EmotionTracker.

(** ** Callers: ui/pages/rational_trader.py and core/rational_ai.py *)

(** [analyze_trade_setup] of the Streamlit page, after the OHLCV fetch
    ([df] is empty when the fetch fails): the [EVAnalysis] it displays. *)
Module RationalTraderPage.
Definition analyze_trade_setup (symbol side : string) (entry stop target : Q)
  (df : list Candle) : EVAnalysis.t :=
  let context_dict :=
    if (0 <? length df)%nat then MarketContext.to_dict (MarketAnalyzer.analyze df)
    else empty_context in
  snd (ExpectedValueCalculator.analyze (TradeSetup.make symbol side entry stop target)
         (Some context_dict)).
End RationalTraderPage.

(** [RationalTradingAI]: the state it changes is its [EmotionTracker]. *)
Module RationalTradingAI.

(** The [market_data] dict: keys "symbol", "price", "recent_move". *)
Record MarketData := mkMarketData {
  md_symbol : option string;
  md_price : option Q;
  md_recent_move : option EmotionFilter.MarketMove
}.

Definition no_market_data : MarketData := mkMarketData None None None.

(** The replies of [process_request].  A reply written by the Gemini
    model (or its error text) is the external service's answer to a
    prompt built from the data it carries. *)
Inductive Response :=
  | ForceBreak                                  (* _generate_force_break_response() *)
  | BlockedReply (emotion_report : string) (advice : EmotionFilter.Advice)
  | EmotionalAIReply (user_message : string) (emotion : EmotionFilter.EmotionAnalysis)
      (market_data : MarketData)
  | EntryReply (setup : TradeSetup.t) (ev : EVAnalysis.t) (context : option MarketContext.t)
  | SkipReply (setup : TradeSetup.t) (ev : EVAnalysis.t) (context : option MarketContext.t)
  | WaitReply (setup : TradeSetup.t) (ev : EVAnalysis.t) (context : option MarketContext.t)
  | AnalysisAIReply (user_message : string) (context : option MarketContext.t)
      (market_data : MarketData).

Record t := mk { capital : Q; emotion_tracker : EmotionTracker.t }.

Definition init (user_capital : Q) : t := mk user_capital EmotionTracker.init.

Definition _generate_trade_response (setup : TradeSetup.t) (ev : EVAnalysis.t)
  (context : option MarketContext.t) : Response :=
  match EVAnalysis.recommendation ev with
  | ENTER => EntryReply setup ev context
  | SKIP => SkipReply setup ev context
  | WAIT => WaitReply setup ev context
  end.

Definition _handle_emotional_request (user_message : string)
  (emotion : EmotionFilter.EmotionAnalysis) (market_data : MarketData) : Response :=
  if EmotionFilter.should_block emotion then
    BlockedReply (EmotionFilter.get_emotion_report emotion) (EmotionFilter.alternative_advice emotion)
  else EmotionalAIReply user_message emotion market_data.

(** One call of [process_request]. *)
Record Request := mkRequest {
  req_time : Q;                                 (* datetime.now() in record *)
  req_message : string;
  req_market_data : option MarketData;
  req_ohlcv : option (list Candle);
  req_last_trade : option EmotionFilter.TradeResult
}.

Definition request_emotion (q : Request) : EmotionFilter.EmotionAnalysis :=
  EmotionFilter.analyze_request (req_message q)
    (md_recent_move (get (req_market_data q) no_market_data)) (req_last_trade q) None.

(** The regular-expression parser [_extract_trade_setup] is a parameter:
    the statements below hold whatever it returns. *)
Section Process.
Variable _extract_trade_setup : string -> MarketData -> option TradeSetup.t.

Definition process_request (self : t) (now : Q) (user_message : string)
  (market_data : option MarketData) (ohlcv_data : option (list Candle))
  (last_trade : option EmotionFilter.TradeResult) : Response * t :=
  let market_data := get market_data no_market_data in
  let recent_move := md_recent_move market_data in
  let emotion_analysis :=
    EmotionFilter.analyze_request user_message recent_move last_trade None in
  let tracker := EmotionTracker.record now emotion_analysis (emotion_tracker self) in
  let self := mk (capital self) tracker in
  if EmotionTracker.should_force_break tracker then (ForceBreak, self)
  else if negb (EmotionFilter.is_rational emotion_analysis) then
    (_handle_emotional_request user_message emotion_analysis market_data, self)
  else
    let market_context :=
      match ohlcv_data with
      | Some df => if (0 <? length df)%nat then Some (MarketAnalyzer.analyze df) else None
      | None => None
      end in
    match _extract_trade_setup user_message market_data with
    | Some trade_setup =>
        let context_dict :=
          match market_context with
          | Some mc => MarketContext.to_dict mc
          | None => empty_context
          end in
        (* [analyze] updates [trade_setup] in place *)
        let '(trade_setup, ev_analysis) :=
          ExpectedValueCalculator.analyze trade_setup (Some context_dict) in
        (_generate_trade_response trade_setup ev_analysis market_context, self)
    | None => (AnalysisAIReply user_message market_context market_data, self)
    end.

(** Successive calls on one instance. *)
Definition process_session (self : t) (reqs : list Request) : list Response * t :=
  fold_left (fun acc q =>
               let '(r, s) := process_request (snd acc) (req_time q) (req_message q)
                                (req_market_data q) (req_ohlcv q) (req_last_trade q) in
               (app (fst acc) [r], s))
            reqs ([], self).
End Process.

End RationalTradingAI.

(** ** Statements of the specification

    Definitions that follow the words of the specification, to be
    compared with the embeddings above. *)

(** The expected value of a setup as the specification writes it:
    [win_probability * reward_percent - (1 - win_probability) * risk_percent],
    on the setup's computed percentages and the unrounded win probability. *)
Definition expected_value_of (setup : TradeSetup.t) (market_context : option EVContext) : Q :=
  let context := get market_context empty_context in
  let s := TradeSetup.calculate_risk_reward setup in
  let wp := ExpectedValueCalculator._estimate_win_probability s context in
  wp * TradeSetup.reward_percent s - (1 - wp) * TradeSetup.risk_percent s.

(** A well-formed setup: all prices positive, side long or short. *)
Definition well_formed (s : TradeSetup.t) : Prop :=
  0 < TradeSetup.entry_price s /\ 0 < TradeSetup.stop_loss s /\
  0 < TradeSetup.take_profit s /\
  (TradeSetup.side s = "long" \/ TradeSetup.side s = "short").

(** The strategy priority list of the specification, as an ordered rule
    table: the first rule whose guard holds gives the strategy. *)
Fixpoint first_match (rules : list (bool * string)) (default : string) : string :=
  match rules with
  | [] => default
  | (guard, out) :: rest => if guard then out else first_match rest default
  end.

Definition spec_strategy (regime : MarketRegime) (trend_dir : string)
  (trend_str : TrendStrength) (bull bear : Q) (vol_regime : string) : string :=
  let high_vol := match regime with HIGH_VOLATILITY => true | _ => false end in
  let weak := match trend_str with WEAK | NO_TREND => true | _ => false end in
  first_match
    [(high_vol || String.eqb vol_regime "extreme", "wait");
     (weak, "wait");
     (String.eqb trend_dir "up" && Qltb 60 bull, "long");
     (String.eqb trend_dir "down" && Qltb 60 bear, "short");
     (Qltb 20 (bull - bear), "long");
     (Qltb 20 (bear - bull), "short")]
    "wait".

(** "The most recent 3 recorded results all had should_block = True". *)
Definition last_three_blocked (calls : list (Q * EmotionFilter.EmotionAnalysis)) : bool :=
  match rev (map (fun c => EmotionFilter.should_block (snd c)) calls) with
  | true :: true :: true :: _ => true
  | _ => false
  end.

(** Length of the leading run of [true]s. *)
Fixpoint leading_true (bs : list bool) : nat :=
  match bs with true :: r => S (leading_true r) | _ => O end.

(** The six category pattern lists of the filter. *)
Definition all_category_patterns : list (list Pattern) :=
  [EmotionFilter.FOMO_PATTERNS; EmotionFilter.FEAR_PATTERNS;
   EmotionFilter.REVENGE_PATTERNS; EmotionFilter.OVERCONFIDENCE_PATTERNS;
   EmotionFilter.GREED_PATTERNS; EmotionFilter.SUNK_COST_PATTERNS].

(** No pattern of any category list is found in the text the filter
    searches (the lower-cased message). *)
Definition matches_no_pattern (message : string) : bool :=
  forallb (fun pats => forallb (fun p => negb (re_search p (py_lower message))) pats)
    all_category_patterns.

(** Concrete inputs used below. *)
Definition cx_setup : TradeSetup.t := TradeSetup.make "BTC/KRW" "long" 100 99 (1009 # 10).
Definition cx_context : EVContext :=
  mkEVContext (Some 20) (Some "bullish") (Some "bullish") (Some "up") None
    (Some (SVStr "strong")) None None None.
Definition scenario2_setup : TradeSetup.t :=
  TradeSetup.make "BTC/KRW" "long" 100000000 95000000 102000000.
Definition scenario2_context : EVContext :=
  mkEVContext (Some 72) None None (Some "down") None None None None None.
Definition flat_candles (n : nat) : list Candle := repeat (mkCandle 1 1 1 1 1) n.
Definition blocked_analysis : EmotionFilter.EmotionAnalysis :=
  EmotionFilter.mkEmotionAnalysis ["overconfidence"; "greed"] 0.62 false []
    true EmotionFilter.ADV_Overconfidence [].
Definition calm_analysis : EmotionFilter.EmotionAnalysis :=
  EmotionFilter.mkEmotionAnalysis [] 0 true [] false EmotionFilter.ADV_Default [].
Definition scenario4_message : string := "BTC RSI가 35인데 지지선 근처에서 매수 검토해볼까?".

(** Inputs and measures used by the further properties. *)

(** A constant series whose true range is 2/3 of the close. *)
Definition wild_candles (n : nat) : list Candle := repeat (mkCandle 1.5 2 1 1.5 1) n.

(** The context dict with its "trend_strength_value" key replaced. *)
Definition with_strength_value (c : EVContext) (v : option StrengthValue) : EVContext :=
  mkEVContext (ctx_rsi c) (ctx_macd_signal c) (ctx_ma_alignment c) (ctx_trend_direction c)
    (ctx_trend_strength c) v (ctx_distance_to_support_pct c)
    (ctx_distance_to_resistance_pct c) (ctx_volatility_regime c).

(** The history dict that [EmotionTracker.record] appends for one call. *)
Definition history_entry (c : Q * EmotionFilter.EmotionAnalysis) : EmotionTracker.HistoryEntry :=
  EmotionTracker.mkEntry (fst c) (EmotionFilter.detected_emotions (snd c))
    (EmotionFilter.emotion_score (snd c)) (EmotionFilter.should_block (snd c)).

(** Largest contribution of each category to the total of
    [analyze_request]: its weight times the maximal pattern score 1.0,
    plus the boosts the category can add. *)
Definition emotion_cap (e : string) : Q :=
  if String.eqb e "fomo" then 0.25 + 0.2
  else if String.eqb e "fear" then 0.25
  else if String.eqb e "revenge" then 0.30 + 0.25 + 0.1
  else if String.eqb e "overconfidence" then 0.35 + 0.2
  else if String.eqb e "greed" then 0.20
  else if String.eqb e "sunk_cost" then 0.20
  else 0.

Definition emotion_cap_sum (es : list string) : Q :=
  fold_right (fun e acc => emotion_cap e + acc) 0 es.

(** The time and emotion analysis a request records in the tracker. *)
Definition request_call (q : RationalTradingAI.Request) : Q * EmotionFilter.EmotionAnalysis :=
  (RationalTradingAI.req_time q, RationalTradingAI.request_emotion q).

(** A message with revenge, overconfidence, leverage and greed words. *)
Definition revenge_message : string := "본전 복구하고 만회하려고 레버리지 10배 올인, 무조건 확실".

(** * Properties *)

(** ** Python helpers *)

Lemma Qltb_true (x y : Q) : Qltb x y = true <-> x < y.
Proof.
  unfold Qltb. rewrite negb_true_iff. split; intro H.
  - apply Qnot_le_lt. intro H'. apply Qle_bool_iff in H'. congruence.
  - destruct (Qle_bool y x) eqn:E; [|reflexivity].
    apply Qle_bool_iff in E. exfalso. apply (Qlt_not_le _ _ H E).
Qed.

Lemma Qltb_false (x y : Q) : Qltb x y = false <-> y <= x.
Proof.
  unfold Qltb. rewrite negb_false_iff. apply Qle_bool_iff.
Qed.

Lemma py_min_le_l a b : py_min a b <= a.
Proof.
  unfold py_min. destruct (Qltb b a) eqn:E.
  - apply Qltb_true in E. apply Qlt_le_weak, E.
  - apply Qle_refl.
Qed.

Lemma py_min_le_r a b : py_min a b <= b.
Proof.
  unfold py_min. destruct (Qltb b a) eqn:E.
  - apply Qle_refl.
  - apply Qltb_false in E. exact E.
Qed.

Lemma py_min_glb a b c : c <= a -> c <= b -> c <= py_min a b.
Proof. unfold py_min. destruct (Qltb b a); auto. Qed.

Lemma py_max_ge_l a b : a <= py_max a b.
Proof.
  unfold py_max. destruct (Qltb a b) eqn:E.
  - apply Qltb_true in E. apply Qlt_le_weak, E.
  - apply Qle_refl.
Qed.

Lemma py_max_lub a b c : a <= c -> b <= c -> py_max a b <= c.
Proof. unfold py_max. destruct (Qltb a b); auto. Qed.

(** [max(lo, min(hi, x))] lies in [[lo, hi]] when [lo <= hi]. *)
Lemma py_clamp_bounds lo hi x :
  lo <= hi -> lo <= py_max lo (py_min hi x) /\ py_max lo (py_min hi x) <= hi.
Proof.
  intro H. split.
  - apply py_max_ge_l.
  - apply py_max_lub; [exact H | apply py_min_le_l].
Qed.

(** The integer [r] of [round(x, n) = r / 10^n] is [floor(x * 10^n)] or
    one more, and one more only when the fraction is at least [1/2]. *)
Lemma py_round_shape n x :
  let y := x * (Zpos (pow10 n) # 1) in
  exists r, py_round n x = r # pow10 n /\
    (r = Qfloor y \/ (r = (Qfloor y + 1)%Z /\ 1 # 2 <= y - inject_Z (Qfloor y))).
Proof.
  intro y. unfold py_round. fold y.
  destruct (Qltb (y - inject_Z (Qfloor y)) (1 # 2)) eqn:E1.
  - exists (Qfloor y). auto.
  - apply Qltb_false in E1.
    destruct (Qltb (1 # 2) (y - inject_Z (Qfloor y))); [|destruct (Z.even (Qfloor y))];
      eexists; split; try reflexivity; auto.
Qed.

Lemma py_round_ge n x (k : Z) : k # pow10 n <= x -> k # pow10 n <= py_round n x.
Proof.
  intro H. destruct (py_round_shape n x) as [r [Hr Hc]]. rewrite Hr.
  set (y := x * (Zpos (pow10 n) # 1)) in *.
  assert (Hk : inject_Z k <= y).
  { apply Qle_trans with ((k # pow10 n) * (Zpos (pow10 n) # 1)).
    - unfold Qle; simpl; nia.
    - apply Qmult_le_compat_r; [exact H | unfold Qle; simpl; lia]. }
  apply Qfloor_resp_le in Hk. rewrite Qfloor_Z in Hk.
  assert (Hkr : (k <= r)%Z) by lia.
  unfold Qle; simpl. nia.
Qed.

Lemma py_round_le n x (m : Z) : x <= m # pow10 n -> py_round n x <= m # pow10 n.
Proof.
  intro H. destruct (py_round_shape n x) as [r [Hr Hc]]. rewrite Hr.
  set (y := x * (Zpos (pow10 n) # 1)) in *.
  assert (Hm : y <= inject_Z m).
  { apply Qle_trans with ((m # pow10 n) * (Zpos (pow10 n) # 1)).
    - apply Qmult_le_compat_r; [exact H | unfold Qle; simpl; lia].
    - unfold Qle; simpl; nia. }
  assert (Hf : (Qfloor y <= m)%Z).
  { rewrite <- (Qfloor_Z m). apply Qfloor_resp_le, Hm. }
  assert (Hrm : (r <= m)%Z).
  { destruct Hc as [-> | [-> Hd]]; [exact Hf|].
    assert (Hh : 1 # 2 <= inject_Z m - inject_Z (Qfloor y)).
    { apply Qle_trans with (y - inject_Z (Qfloor y)); [exact Hd|].
      apply Qplus_le_compat; [exact Hm | apply Qle_refl]. }
    set (f := Qfloor y) in *. clearbody f.
    unfold Qle, Qminus, Qplus, Qopp, inject_Z in Hh; simpl in Hh. lia. }
  unfold Qle; simpl. nia.
Qed.

Lemma py_round_between n x lo hi (k m : Z) :
  lo == k # pow10 n -> hi == m # pow10 n -> lo <= x -> x <= hi ->
  lo <= py_round n x /\ py_round n x <= hi.
Proof.
  intros Hlo Hhi H1 H2. rewrite Hlo, Hhi in *. split.
  - apply py_round_ge, H1.
  - apply py_round_le, H2.
Qed.

(** ** ExpectedValueCalculator *)

Section ExpectedValue.
Import ExpectedValueCalculator.

Lemma win_probability_clamped setup context :
  0.20 <= _estimate_win_probability setup context /\
  _estimate_win_probability setup context <= 0.80.
Proof.
  unfold _estimate_win_probability. apply py_clamp_bounds. unfold Qle; simpl; lia.
Qed.

Lemma kelly_clamped win_prob rr_ratio :
  0 <= _calculate_kelly win_prob rr_ratio /\ _calculate_kelly win_prob rr_ratio <= MAX_KELLY.
Proof.
  unfold _calculate_kelly. destruct (Qle_bool rr_ratio 0).
  - split; unfold Qle; simpl; lia.
  - apply py_clamp_bounds. unfold Qle; simpl; lia.
Qed.

Lemma optimal_position_clamped k :
  0 <= k -> 0 <= py_min (k * 100) 5.0 /\ py_min (k * 100) 5.0 <= 5.0.
Proof.
  intro H. split.
  - apply py_min_glb; [|unfold Qle; simpl; lia].
    rewrite <- (Qmult_0_l 100). apply Qmult_le_compat_r; [exact H | unfold Qle; simpl; lia].
  - apply py_min_le_r.
Qed.

(** [analyze] through its decision: the recommendation and confidence
    are those of [_make_decision] on the unrounded values. *)
Lemma analyze_decision setup market_context :
  let context := get market_context empty_context in
  let s := TradeSetup.calculate_risk_reward setup in
  let wp := _estimate_win_probability s context in
  let ev := wp * TradeSetup.reward_percent s - (1 - wp) * TradeSetup.risk_percent s in
  fst (_make_decision ev wp (TradeSetup.risk_reward_ratio s) context) =
  (EVAnalysis.recommendation (snd (analyze setup market_context)),
   EVAnalysis.confidence (snd (analyze setup market_context))).
Proof.
  intros. unfold analyze. fold context s wp ev.
  destruct (_make_decision ev wp (TradeSetup.risk_reward_ratio s) context) as [[r c] l].
  reflexivity.
Qed.

Lemma make_decision_negative ev wp rr context :
  ev < 0 -> fst (_make_decision ev wp rr context) = (SKIP, HIGH).
Proof.
  intro H. unfold _make_decision. apply Qltb_true in H. rewrite H. reflexivity.
Qed.

Lemma make_decision_bad_rr ev wp rr context :
  rr < 1.0 ->
  fst (_make_decision ev wp rr context) =
  if Qltb ev 0 then (SKIP, HIGH) else if Qltb ev MIN_EV then (SKIP, MEDIUM) else (SKIP, HIGH).
Proof.
  intro H. unfold _make_decision. apply Qltb_true in H.
  destruct (Qltb ev 0); [reflexivity|].
  destruct (Qltb ev MIN_EV); [reflexivity|].
  rewrite H. reflexivity.
Qed.

Lemma calculate_risk_reward_idem s :
  TradeSetup.calculate_risk_reward (TradeSetup.calculate_risk_reward s) =
  TradeSetup.calculate_risk_reward s.
Proof.
  unfold TradeSetup.calculate_risk_reward at 2.
  destruct (Qle_bool (TradeSetup.entry_price s) 0) eqn:E.
  - unfold TradeSetup.calculate_risk_reward. rewrite E. reflexivity.
  - destruct (String.eqb (TradeSetup.side s) "long") eqn:L;
      unfold TradeSetup.calculate_risk_reward; simpl; rewrite E, L; reflexivity.
Qed.
End ExpectedValue.

Lemma fst_analyze setup market_context :
  fst (ExpectedValueCalculator.analyze setup market_context) =
  TradeSetup.calculate_risk_reward setup.
Proof.
  unfold ExpectedValueCalculator.analyze.
  destruct (ExpectedValueCalculator._make_decision _ _ _ _) as [[r c] l]. reflexivity.
Qed.

(** C1: whenever the computed expected value
    [win_probability * reward_percent - (1 - win_probability) * risk_percent]
    is negative, [analyze] recommends SKIP (with HIGH confidence); so no
    input yields ENTER with a negative expected value. *)
Theorem ev_negative_means_skip (setup : TradeSetup.t) (market_context : option EVContext) :
  expected_value_of setup market_context < 0 ->
  EVAnalysis.recommendation (snd (ExpectedValueCalculator.analyze setup market_context)) = SKIP /\
  EVAnalysis.confidence (snd (ExpectedValueCalculator.analyze setup market_context)) = HIGH.
Proof.
  intro H. pose proof (analyze_decision setup market_context) as D. cbv zeta in D.
  unfold expected_value_of in H. cbv zeta in H.
  rewrite (make_decision_negative _ _ _ _ H) in D.
  revert D. generalize (snd (ExpectedValueCalculator.analyze setup market_context)).
  intros a D. injection D as E1 E2. auto.
Qed.

Lemma ev_negative_means_skip_witness :
  expected_value_of scenario2_setup (Some scenario2_context) < 0 /\
  EVAnalysis.recommendation
    (snd (ExpectedValueCalculator.analyze scenario2_setup (Some scenario2_context))) = SKIP /\
  EVAnalysis.confidence
    (snd (ExpectedValueCalculator.analyze scenario2_setup (Some scenario2_context))) = HIGH.
Proof.
  split; [vm_compute; reflexivity|].
  apply ev_negative_means_skip. vm_compute. reflexivity.
Defined.

(** C2 (counterexample): a well-formed long setup with risk:reward 0.9 and
    a favourable context has expected value in [0, 0.5), so [analyze]
    returns SKIP with MEDIUM, not HIGH, confidence. *)
Lemma bad_rr_high_confidence_counterexample :
  ~ (forall (setup : TradeSetup.t) (market_context : option EVContext),
       well_formed setup ->
       TradeSetup.risk_reward_ratio (fst (ExpectedValueCalculator.analyze setup market_context)) < 1.0 ->
       EVAnalysis.recommendation (snd (ExpectedValueCalculator.analyze setup market_context)) = SKIP /\
       EVAnalysis.confidence (snd (ExpectedValueCalculator.analyze setup market_context)) = HIGH).
Proof.
  intro H.
  destruct (H cx_setup (Some cx_context)) as [_ Hc].
  - unfold well_formed. simpl. repeat split; try (unfold Qlt; simpl; lia). left; reflexivity.
  - vm_compute. reflexivity.
  - vm_compute in Hc. discriminate Hc.
Qed.

(** C2 (amended): whenever the computed risk:reward ratio is below 1.0,
    [analyze] recommends SKIP; the confidence is MEDIUM when the computed
    expected value lies in [0, MIN_EV = 0.5) (the expected-value checks
    come first) and HIGH otherwise. *)
Theorem bad_rr_means_skip (setup : TradeSetup.t) (market_context : option EVContext) :
  TradeSetup.risk_reward_ratio (fst (ExpectedValueCalculator.analyze setup market_context)) < 1.0 ->
  let a := snd (ExpectedValueCalculator.analyze setup market_context) in
  let ev := expected_value_of setup market_context in
  EVAnalysis.recommendation a = SKIP /\
  ((0 <= ev /\ ev < 0.5 /\ EVAnalysis.confidence a = MEDIUM) \/
   ((ev < 0 \/ 0.5 <= ev) /\ EVAnalysis.confidence a = HIGH)).
Proof.
  intros H a ev. rewrite fst_analyze in H.
  pose proof (analyze_decision setup market_context) as D. cbv zeta in D.
  rewrite (make_decision_bad_rr _ _ _ _ H) in D.
  unfold ev, a. unfold expected_value_of. cbv zeta.
  revert D. generalize (snd (ExpectedValueCalculator.analyze setup market_context)).
  intros b D.
  destruct (Qltb _ 0) eqn:E1.
  - injection D as <- <-. split; [reflexivity|].
    right. split; [left; apply Qltb_true, E1 | reflexivity].
  - destruct (Qltb _ ExpectedValueCalculator.MIN_EV) eqn:E2; injection D as <- <-.
    + split; [reflexivity|]. left.
      apply Qltb_false in E1. apply Qltb_true in E2. auto.
    + split; [reflexivity|]. right.
      apply Qltb_false in E2. split; [right; exact E2 | reflexivity].
Qed.

Lemma bad_rr_means_skip_witness :
  TradeSetup.risk_reward_ratio (fst (ExpectedValueCalculator.analyze cx_setup (Some cx_context))) < 1.0 /\
  EVAnalysis.recommendation (snd (ExpectedValueCalculator.analyze cx_setup (Some cx_context))) = SKIP.
Proof.
  assert (H : TradeSetup.risk_reward_ratio
                (fst (ExpectedValueCalculator.analyze cx_setup (Some cx_context))) < 1.0)
    by (vm_compute; reflexivity).
  split; [exact H|].
  exact (proj1 (bad_rr_means_skip cx_setup (Some cx_context) H)).
Defined.

(** C3: every analysis has [win_probability] in [[0.20, 0.80]],
    [kelly_fraction] in [[0, 0.25]] and [optimal_position_pct] in
    [[0, 5.0]] (after the rounding of the returned fields). *)
Theorem analyze_fields_bounded (setup : TradeSetup.t) (market_context : option EVContext) :
  let a := snd (ExpectedValueCalculator.analyze setup market_context) in
  (0.20 <= EVAnalysis.win_probability a /\ EVAnalysis.win_probability a <= 0.80) /\
  (0 <= EVAnalysis.kelly_fraction a /\ EVAnalysis.kelly_fraction a <= 0.25) /\
  (0 <= EVAnalysis.optimal_position_pct a /\ EVAnalysis.optimal_position_pct a <= 5.0).
Proof.
  unfold ExpectedValueCalculator.analyze.
  set (ctx := get market_context empty_context).
  set (s := TradeSetup.calculate_risk_reward setup).
  set (wp := ExpectedValueCalculator._estimate_win_probability s ctx).
  set (k := ExpectedValueCalculator._calculate_kelly wp (TradeSetup.risk_reward_ratio s)).
  destruct (ExpectedValueCalculator._make_decision _ _ _ _) as [[r c] l].
  cbn [snd EVAnalysis.win_probability EVAnalysis.kelly_fraction EVAnalysis.optimal_position_pct].
  destruct (win_probability_clamped s ctx) as [W1 W2]. fold wp in W1, W2.
  destruct (kelly_clamped wp (TradeSetup.risk_reward_ratio s)) as [K1 K2]. fold k in K1, K2.
  destruct (optimal_position_clamped k K1) as [O1 O2].
  split; [|split].
  - apply (py_round_between 3 wp 0.20 0.80 200 800); auto; reflexivity.
  - apply (py_round_between 4 k 0 0.25 0 2500); auto; reflexivity.
  - apply (py_round_between 2 _ 0 5.0 0 500); auto; reflexivity.
Qed.

(** C6: [analyze] is deterministic.  In particular, calling it a second
    time on the same setup object (as mutated by the first call) and the
    same context gives the same analysis and leaves the setup unchanged. *)
Theorem analyze_repeatable (setup : TradeSetup.t) (market_context : option EVContext) :
  ExpectedValueCalculator.analyze
    (fst (ExpectedValueCalculator.analyze setup market_context)) market_context =
  ExpectedValueCalculator.analyze setup market_context.
Proof.
  rewrite fst_analyze. unfold ExpectedValueCalculator.analyze.
  rewrite calculate_risk_reward_idem. reflexivity.
Qed.

Lemma analyze_none setup :
  ExpectedValueCalculator.analyze setup None =
  ExpectedValueCalculator.analyze setup (Some empty_context).
Proof. unfold ExpectedValueCalculator.analyze. cbn [get]. reflexivity. Qed.

(** C10: [quick_evaluate] returns the [ev], [rr], [win_prob], [kelly] and
    [confidence] of [analyze] on the setup built from its arguments with an
    empty context, and a verdict that depends only on the recommendation. *)
Theorem quick_evaluate_is_analyze :
  (forall (entry stop target : Q) (side symbol : string),
     let a := snd (ExpectedValueCalculator.analyze
                     (TradeSetup.make symbol side entry stop target) (Some empty_context)) in
     let q := ExpectedValueCalculator.quick_evaluate entry stop target side symbol in
     ExpectedValueCalculator.q_ev q = EVAnalysis.expected_value a /\
     ExpectedValueCalculator.q_rr q = EVAnalysis.risk_reward_ratio a /\
     ExpectedValueCalculator.q_win_prob q = EVAnalysis.win_probability a /\
     ExpectedValueCalculator.q_kelly q = EVAnalysis.kelly_fraction a /\
     ExpectedValueCalculator.q_confidence q = Confidence_value (EVAnalysis.confidence a) /\
     ExpectedValueCalculator.q_verdict q =
       ExpectedValueCalculator.verdict_map (EVAnalysis.recommendation a)) /\
  (forall (e1 s1 t1 e2 s2 t2 : Q) (side1 side2 sym1 sym2 : string),
     EVAnalysis.recommendation
       (snd (ExpectedValueCalculator.analyze (TradeSetup.make sym1 side1 e1 s1 t1) None)) =
     EVAnalysis.recommendation
       (snd (ExpectedValueCalculator.analyze (TradeSetup.make sym2 side2 e2 s2 t2) None)) ->
     ExpectedValueCalculator.q_verdict (ExpectedValueCalculator.quick_evaluate e1 s1 t1 side1 sym1) =
     ExpectedValueCalculator.q_verdict (ExpectedValueCalculator.quick_evaluate e2 s2 t2 side2 sym2)).
Proof.
  split.
  - intros. unfold a, q, ExpectedValueCalculator.quick_evaluate.
    rewrite analyze_none. repeat split.
  - intros e1 s1 t1 e2 s2 t2 side1 side2 sym1 sym2 H.
    unfold ExpectedValueCalculator.quick_evaluate. cbn [ExpectedValueCalculator.q_verdict].
    rewrite H. reflexivity.
Qed.

Lemma quick_evaluate_is_analyze_witness :
  EVAnalysis.recommendation
    (snd (ExpectedValueCalculator.analyze (TradeSetup.make "BTC" "long" 100 98 106) None)) =
  EVAnalysis.recommendation
    (snd (ExpectedValueCalculator.analyze (TradeSetup.make "ETH" "long" 100 97 109) None)) /\
  ExpectedValueCalculator.q_verdict (ExpectedValueCalculator.quick_evaluate 100 98 106 "long" "BTC") =
  ExpectedValueCalculator.q_verdict (ExpectedValueCalculator.quick_evaluate 100 97 109 "long" "ETH").
Proof.
  assert (H : EVAnalysis.recommendation
                (snd (ExpectedValueCalculator.analyze (TradeSetup.make "BTC" "long" 100 98 106) None)) =
              EVAnalysis.recommendation
                (snd (ExpectedValueCalculator.analyze (TradeSetup.make "ETH" "long" 100 97 109) None)))
    by (vm_compute; reflexivity).
  split; [exact H|].
  exact (proj2 quick_evaluate_is_analyze 100 98 106 100 97 109 "long" "long" "BTC" "ETH" H).
Defined.

(** ** MarketAnalyzer *)

Lemma bias_scores_clamped rsi macd_signal ma_alignment trend_direction volume_trend :
  let p := MarketAnalyzer._calculate_bias_scores rsi macd_signal ma_alignment
             trend_direction volume_trend in
  (0 <= fst p /\ fst p <= 100) /\ (0 <= snd p /\ snd p <= 100).
Proof.
  cbv zeta. unfold MarketAnalyzer._calculate_bias_scores.
  repeat lazymatch goal with
  | |- context [match ?q with pair _ _ => _ end] => destruct q
  end.
  cbn [fst snd]. split; apply py_clamp_bounds; unfold Qle; simpl; lia.
Qed.

(** C4 (counterexample): the default context returned for a short
    series does not carry the reasoning ["insufficient data"]: its single
    line is the Korean "데이터 부족 - 분석 불가". *)
Lemma short_series_reasoning_counterexample :
  ~ (forall candles : list Candle,
       (length candles < 50)%nat ->
       MarketContext.reasoning (MarketAnalyzer.analyze candles) = [MR_Text "insufficient data"]).
Proof.
  intro H. specialize (H [] ltac:(simpl; lia)). discriminate H.
Qed.

(** C4 (amended): for every series of fewer than 50 candles, [analyze]
    returns the fixed default context: regime NEUTRAL, trend sideways with
    strength NO_TREND (value "weak"), RSI 50 with every signal "neutral",
    support, resistance and their distances 0, ATR 2% with volatility
    "normal", volume "stable" without anomaly, both scores 50, strategy
    "wait", reasoning the single line "데이터 부족 - 분석 불가", price 0. *)
Theorem short_series_default_context (candles : list Candle) :
  (length candles < 50)%nat ->
  MarketAnalyzer.analyze candles =
  MarketContext.mk NEUTRAL "sideways" NO_TREND "weak" 50 "neutral" "neutral" "neutral"
    0 0 0 0 2 "normal" "stable" false 50 50 "wait"
    [MR_Text "데이터 부족 - 분석 불가"] 0.
Proof.
  intro H. unfold MarketAnalyzer.analyze.
  apply Nat.ltb_lt in H. rewrite H. reflexivity.
Qed.

Lemma short_series_default_context_witness :
  (length (flat_candles 49) < 50)%nat /\
  MarketAnalyzer.analyze (flat_candles 49) =
  MarketContext.mk NEUTRAL "sideways" NO_TREND "weak" 50 "neutral" "neutral" "neutral"
    0 0 0 0 2 "normal" "stable" false 50 50 "wait"
    [MR_Text "데이터 부족 - 분석 불가"] 0.
Proof.
  assert (H : (length (flat_candles 49) < 50)%nat) by (vm_compute; lia).
  split; [exact H | exact (short_series_default_context (flat_candles 49) H)].
Defined.

(** C5: the recommended strategy is the first match of the priority list
    HIGH_VOLATILITY regime or extreme volatility => wait; WEAK or NO_TREND
    => wait; up trend and bullish score > 60 => long; down trend and
    bearish score > 60 => short; bullish - bearish > 20 => long;
    bearish - bullish > 20 => short; otherwise wait. *)
Theorem recommend_strategy_priority (regime : MarketRegime) (trend_dir : string)
  (trend_str : TrendStrength) (bull bear price support resistance : Q) (vol_regime : string) :
  fst (MarketAnalyzer._recommend_strategy regime trend_dir trend_str bull bear
         price support resistance vol_regime) =
  spec_strategy regime trend_dir trend_str bull bear vol_regime.
Proof.
  unfold MarketAnalyzer._recommend_strategy, spec_strategy. cbn [first_match].
  destruct (_ || String.eqb vol_regime "extreme"); [reflexivity|].
  destruct (match trend_str with WEAK | NO_TREND => true | _ => false end); [reflexivity|].
  destruct (String.eqb trend_dir "up" && Qltb 60 bull); [reflexivity|].
  destruct (String.eqb trend_dir "down" && Qltb 60 bear); [reflexivity|].
  destruct (Qltb 20 (bull - bear)); [reflexivity|].
  destruct (Qltb 20 (bear - bull)); reflexivity.
Qed.

(** C9: for every series of at least 50 candles, the bullish and bearish
    scores of [analyze] each lie in [[0, 100]]. *)
Theorem analyze_scores_bounded (candles : list Candle) :
  (50 <= length candles)%nat ->
  let m := MarketAnalyzer.analyze candles in
  (0 <= MarketContext.bullish_score m /\ MarketContext.bullish_score m <= 100) /\
  (0 <= MarketContext.bearish_score m /\ MarketContext.bearish_score m <= 100).
Proof.
  intro H. unfold MarketAnalyzer.analyze.
  assert (L : (length candles <? 50)%nat = false) by (apply Nat.ltb_ge; exact H).
  rewrite L. cbv zeta.
  destruct (MarketAnalyzer._analyze_trend _) as [trend_dir trend_str].
  destruct (MarketAnalyzer._find_sr_levels _) as [support resistance].
  destruct (MarketAnalyzer._analyze_volume _) as [vol_trend vol_anomaly].
  pose proof (bias_scores_clamped
    (r_RSI (MarketAnalyzer.latest_row (MarketAnalyzer._calculate_indicators candles)))
    (MarketAnalyzer._analyze_macd (MarketAnalyzer._calculate_indicators candles))
    (MarketAnalyzer._analyze_ma_alignment (MarketAnalyzer._calculate_indicators candles))
    trend_dir vol_trend) as B.
  cbv zeta in B.
  destruct (MarketAnalyzer._calculate_bias_scores _ _ _ _ _) as [bull bear].
  cbn [fst snd] in B. destruct B as [[B1 B2] [B3 B4]].
  destruct (MarketAnalyzer._recommend_strategy _ _ _ _ _ _ _ _ _) as [strategy reasoning].
  cbn [MarketContext.bullish_score MarketContext.bearish_score].
  split.
  - apply (py_round_between 1 bull 0 100 0 1000); auto; reflexivity.
  - apply (py_round_between 1 bear 0 100 0 1000); auto; reflexivity.
Qed.

Lemma analyze_scores_bounded_witness :
  (50 <= length (flat_candles 50))%nat /\
  (0 <= MarketContext.bullish_score (MarketAnalyzer.analyze (flat_candles 50)) /\
   MarketContext.bullish_score (MarketAnalyzer.analyze (flat_candles 50)) <= 100) /\
  (0 <= MarketContext.bearish_score (MarketAnalyzer.analyze (flat_candles 50)) /\
   MarketContext.bearish_score (MarketAnalyzer.analyze (flat_candles 50)) <= 100).
Proof.
  assert (H : (50 <= length (flat_candles 50))%nat) by (vm_compute; lia).
  split; [exact H | exact (analyze_scores_bounded (flat_candles 50) H)].
Defined.

(** ** EmotionTracker and EmotionFilter *)

Lemma record_all_app calls c tr :
  EmotionTracker.record_all (calls ++ [c]) tr =
  EmotionTracker.record (fst c) (snd c) (EmotionTracker.record_all calls tr).
Proof. unfold EmotionTracker.record_all. rewrite fold_left_app. reflexivity. Qed.

(** The counter is the length of the trailing run of blocked results. *)
Lemma record_all_consecutive_blocks calls :
  EmotionTracker.consecutive_blocks (EmotionTracker.record_all calls EmotionTracker.init) =
  leading_true (rev (map (fun c => EmotionFilter.should_block (snd c)) calls)).
Proof.
  induction calls as [|c calls IH] using rev_ind; [reflexivity|].
  rewrite record_all_app, map_app, rev_app_distr. cbn [map rev app].
  unfold EmotionTracker.record.
  destruct (EmotionFilter.should_block (snd c)); cbn; [rewrite IH|]; reflexivity.
Qed.

(** C7: after recording any sequence of analyses in a fresh tracker,
    [should_force_break()] holds exactly when the last three recorded
    results were all blocked; the counter grows by one on a blocked result
    and is reset to 0 by a non-blocked one, after which
    [should_force_break()] is false. *)
Theorem force_break_after_three_blocks :
  forall calls : list (Q * EmotionFilter.EmotionAnalysis),
    let tr := EmotionTracker.record_all calls EmotionTracker.init in
    EmotionTracker.should_force_break tr = last_three_blocked calls /\
    (forall now a,
       EmotionTracker.consecutive_blocks (EmotionTracker.record now a tr) =
       (if EmotionFilter.should_block a then S (EmotionTracker.consecutive_blocks tr) else O)) /\
    (forall now a,
       EmotionFilter.should_block a = false ->
       EmotionTracker.should_force_break (EmotionTracker.record now a tr) = false).
Proof.
  intros calls tr. split; [|split].
  - unfold EmotionTracker.should_force_break, tr. rewrite record_all_consecutive_blocks.
    unfold last_three_blocked.
    destruct (rev _) as [|[|] [|[|] [|[|] r]]]; reflexivity.
  - intros now a. unfold EmotionTracker.record.
    destruct (EmotionFilter.should_block a); reflexivity.
  - intros now a H. unfold EmotionTracker.record. rewrite H. reflexivity.
Qed.

Lemma force_break_after_three_blocks_witness :
  let calls := [(0, blocked_analysis); (1, blocked_analysis); (2, blocked_analysis)] in
  EmotionTracker.should_force_break (EmotionTracker.record_all calls EmotionTracker.init) = true /\
  EmotionFilter.should_block calm_analysis = false /\
  EmotionTracker.should_force_break
    (EmotionTracker.record 3 calm_analysis (EmotionTracker.record_all calls EmotionTracker.init)) =
  false.
Proof.
  intro calls.
  destruct (force_break_after_three_blocks calls) as [H1 [_ H3]].
  split; [rewrite H1; reflexivity|].
  split; [reflexivity|].
  apply H3. reflexivity.
Defined.

Lemma detect_pattern_none text pats :
  forallb (fun p => negb (re_search p text)) pats = true ->
  EmotionFilter._detect_pattern text pats = 0 # 3.
Proof.
  intro H. unfold EmotionFilter._detect_pattern.
  replace (filter (fun p => re_search p text) pats) with (@nil Pattern); [reflexivity|].
  induction pats as [|p pats IH]; [reflexivity|].
  cbn [forallb] in H. apply andb_true_iff in H as [Hp Hs].
  cbn [filter]. apply negb_true_iff in Hp. rewrite Hp. apply IH, Hs.
Qed.

(** C8: a message in which no pattern of the six category lists is found
    (the filter searches the lower-cased message) gets
    [emotion_score == 0], [is_rational == True], [should_block == False]
    and no detected emotion, whatever the market move, last trade and
    elapsed time. *)
Theorem no_pattern_no_emotion (user_message : string)
  (recent_market_move : option EmotionFilter.MarketMove)
  (last_trade_result : option EmotionFilter.TradeResult)
  (time_since_last_trade : option Q) :
  matches_no_pattern user_message = true ->
  let a := EmotionFilter.analyze_request user_message recent_market_move
             last_trade_result time_since_last_trade in
  EmotionFilter.emotion_score a == 0 /\ EmotionFilter.is_rational a = true /\
  EmotionFilter.should_block a = false /\ EmotionFilter.detected_emotions a = [].
Proof.
  intros H a.
  assert (HL : forall L, In L all_category_patterns ->
                 forallb (fun p => negb (re_search p (py_lower user_message))) L = true)
    by (apply forallb_forall; exact H).
  unfold a, EmotionFilter.analyze_request. cbv zeta.
  rewrite !(detect_pattern_none _ EmotionFilter.FOMO_PATTERNS
              (HL EmotionFilter.FOMO_PATTERNS ltac:(left; reflexivity))),
          !(detect_pattern_none _ EmotionFilter.FEAR_PATTERNS
              (HL EmotionFilter.FEAR_PATTERNS ltac:(do 1 right; left; reflexivity))),
          !(detect_pattern_none _ EmotionFilter.REVENGE_PATTERNS
              (HL EmotionFilter.REVENGE_PATTERNS ltac:(do 2 right; left; reflexivity))),
          !(detect_pattern_none _ EmotionFilter.OVERCONFIDENCE_PATTERNS
              (HL EmotionFilter.OVERCONFIDENCE_PATTERNS ltac:(do 3 right; left; reflexivity))),
          !(detect_pattern_none _ EmotionFilter.GREED_PATTERNS
              (HL EmotionFilter.GREED_PATTERNS ltac:(do 4 right; left; reflexivity))),
          !(detect_pattern_none _ EmotionFilter.SUNK_COST_PATTERNS
              (HL EmotionFilter.SUNK_COST_PATTERNS ltac:(do 5 right; left; reflexivity))).
  (* every category score is 0, so no branch is taken *)
  change (Qltb 0 (0 # 3)) with false. cbv beta iota.
  cbn [EmotionFilter.emotion_score EmotionFilter.is_rational
       EmotionFilter.should_block EmotionFilter.detected_emotions].
  repeat split; vm_compute; reflexivity.
Qed.

Lemma no_pattern_no_emotion_witness :
  matches_no_pattern scenario4_message = true /\
  (let a := EmotionFilter.analyze_request scenario4_message
              (Some (EmotionFilter.mkMove (Some 15))) None (Some 600) in
   EmotionFilter.emotion_score a == 0 /\ EmotionFilter.is_rational a = true /\
   EmotionFilter.should_block a = false /\ EmotionFilter.detected_emotions a = []).
Proof.
  assert (H : matches_no_pattern scenario4_message = true) by (vm_compute; reflexivity).
  split; [exact H|].
  exact (no_pattern_no_emotion scenario4_message (Some (EmotionFilter.mkMove (Some 15)))
           None (Some 600) H).
Defined.

(** ** Further properties of the code *)

Lemma Qltb_comp x x' y y' : x == x' -> y == y' -> Qltb x y = Qltb x' y'.
Proof.
  intros Hx Hy. destruct (Qltb x y) eqn:E, (Qltb x' y') eqn:E'; auto.
  - apply Qltb_true in E. apply Qltb_false in E'. exfalso. lra.
  - apply Qltb_false in E. apply Qltb_true in E'. exfalso. lra.
Qed.

Lemma Qle_bool_comp x x' y y' : x == x' -> y == y' -> Qle_bool x y = Qle_bool x' y'.
Proof.
  intros Hx Hy. destruct (Qle_bool x y) eqn:E, (Qle_bool x' y') eqn:E'; auto.
  - apply Qle_bool_iff in E. exfalso. apply Bool.not_true_iff_false in E'. apply E'. apply Qle_bool_iff. lra.
  - apply Qle_bool_iff in E'. exfalso. apply Bool.not_true_iff_false in E. apply E. apply Qle_bool_iff. lra.
Qed.

Lemma py_round_comp n x y : x == y -> py_round n x = py_round n y.
Proof.
  intro H. unfold py_round.
  assert (Hf : Qfloor (x * (Zpos (pow10 n) # 1)) = Qfloor (y * (Zpos (pow10 n) # 1))).
  { apply Qfloor_comp. apply Qmult_comp; [exact H | reflexivity]. }
  rewrite Hf.
  rewrite (Qltb_comp (x * (Zpos (pow10 n) # 1) - inject_Z (Qfloor (y * (Zpos (pow10 n) # 1))))
             (y * (Zpos (pow10 n) # 1) - inject_Z (Qfloor (y * (Zpos (pow10 n) # 1)))) (1#2) (1#2))
    by first [reflexivity | apply Qplus_comp; [apply Qmult_comp; [exact H | reflexivity] | reflexivity]].
  rewrite (Qltb_comp (1#2) (1#2) (x * (Zpos (pow10 n) # 1) - inject_Z (Qfloor (y * (Zpos (pow10 n) # 1))))
             (y * (Zpos (pow10 n) # 1) - inject_Z (Qfloor (y * (Zpos (pow10 n) # 1)))))
    by first [reflexivity | apply Qplus_comp; [apply Qmult_comp; [exact H | reflexivity] | reflexivity]].
  reflexivity.
Qed.

Lemma py_round_mono n x y : x <= y -> py_round n x <= py_round n y.
Proof.
  intro H. unfold py_round.
  set (p := pow10 n).
  assert (Hxy : x * (Zpos p # 1) <= y * (Zpos p # 1))
    by (apply Qmult_le_compat_r; [exact H | unfold Qle; simpl; lia]).
  set (X := x * (Zpos p # 1)) in *. set (Y := y * (Zpos p # 1)) in *.
  assert (Hf : (Qfloor X <= Qfloor Y)%Z) by (apply Qfloor_resp_le; exact Hxy).
  pose proof (Qfloor_le X) as HX1. pose proof (Qlt_floor X) as HX2.
  pose proof (Qfloor_le Y) as HY1. pose proof (Qlt_floor Y) as HY2.
  set (fx := Qfloor X) in *. set (fy := Qfloor Y) in *.
  clearbody fx fy X Y.
  assert (Hr : ((if Qltb (X - inject_Z fx) (1 # 2) then fx
           else if Qltb (1 # 2) (X - inject_Z fx) then (fx + 1)%Z
           else if Z.even fx then fx else (fx + 1)%Z) <=
          (if Qltb (Y - inject_Z fy) (1 # 2) then fy
           else if Qltb (1 # 2) (Y - inject_Z fy) then (fy + 1)%Z
           else if Z.even fy then fy else (fy + 1)%Z))%Z).
  { destruct (Z.lt_ge_cases fx fy) as [Hlt | Hge].
    - destruct (Qltb (X - inject_Z fx) (1 # 2)), (Qltb (1 # 2) (X - inject_Z fx)), (Z.even fx),
        (Qltb (Y - inject_Z fy) (1 # 2)), (Qltb (1 # 2) (Y - inject_Z fy)), (Z.even fy); lia.
    - assert (fy = fx) by lia. subst fy.
      destruct (Qltb (X - inject_Z fx) (1 # 2)) eqn:A1; [destruct (Qltb (Y - inject_Z fx) (1 # 2)), (Qltb (1 # 2) (Y - inject_Z fx)), (Z.even fx); lia|].
      destruct (Qltb (1 # 2) (X - inject_Z fx)) eqn:A2.
      + apply Qltb_true in A2.
        assert (B1 : Qltb (Y - inject_Z fx) (1 # 2) = false) by (apply Qltb_false; lra).
        assert (B2 : Qltb (1 # 2) (Y - inject_Z fx) = true) by (apply Qltb_true; lra).
        rewrite B1, B2. lia.
      + apply Qltb_false in A1. apply Qltb_false in A2.
        assert (B1 : Qltb (Y - inject_Z fx) (1 # 2) = false) by (apply Qltb_false; lra).
        rewrite B1. destruct (Qltb (1 # 2) (Y - inject_Z fx)), (Z.even fx); lia. }
  unfold Qle; simpl. nia.
Qed.

Lemma rr_comp r1 r2 w1 w2 : r1 == r2 -> w1 == w2 ->
  (if Qltb 0 r1 then w1 / r1 else 0) == (if Qltb 0 r2 then w2 / r2 else 0).
Proof.
  intros Hr Hw. rewrite (Qltb_comp 0 0 r1 r2 (Qeq_refl 0) Hr).
  destruct (Qltb 0 r2); [rewrite Hr, Hw|]; reflexivity.
Qed.

Lemma abs_diff_pct_sym a b e : Qabs (a - b) / e * 100 == Qabs (b - a) / e * 100.
Proof. rewrite Qabs_Qminus. reflexivity. Qed.

(** X1: [calculate_risk_reward] measures risk and reward as absolute
    price distances, so the side of the setup does not change its
    risk percent, reward percent or risk:reward ratio. *)
Theorem calculate_risk_reward_side_free (s : TradeSetup.t) (side' : string) :
  let s' := TradeSetup.mk (TradeSetup.symbol s) side' (TradeSetup.entry_price s)
              (TradeSetup.stop_loss s) (TradeSetup.take_profit s)
              (TradeSetup.risk_percent s) (TradeSetup.reward_percent s)
              (TradeSetup.risk_reward_ratio s) in
  TradeSetup.risk_percent (TradeSetup.calculate_risk_reward s') ==
    TradeSetup.risk_percent (TradeSetup.calculate_risk_reward s) /\
  TradeSetup.reward_percent (TradeSetup.calculate_risk_reward s') ==
    TradeSetup.reward_percent (TradeSetup.calculate_risk_reward s) /\
  TradeSetup.risk_reward_ratio (TradeSetup.calculate_risk_reward s') ==
    TradeSetup.risk_reward_ratio (TradeSetup.calculate_risk_reward s).
Proof.
  intro s'. destruct s as [sym sd e st tp rk rw rr]. subst s'.
  unfold TradeSetup.calculate_risk_reward. cbn [TradeSetup.entry_price TradeSetup.side
    TradeSetup.stop_loss TradeSetup.take_profit TradeSetup.risk_percent TradeSetup.reward_percent TradeSetup.risk_reward_ratio].
  destruct (Qle_bool e 0).
  - cbn [TradeSetup.risk_percent TradeSetup.reward_percent TradeSetup.risk_reward_ratio].
    repeat split; reflexivity.
  - destruct (String.eqb side' "long"), (String.eqb sd "long"); cbv beta iota zeta;
      cbn [TradeSetup.risk_percent TradeSetup.reward_percent TradeSetup.risk_reward_ratio].
    + repeat split; apply Qeq_refl.
    + split; [|split]; [apply abs_diff_pct_sym | apply abs_diff_pct_sym |].
      apply rr_comp; apply abs_diff_pct_sym.
    + split; [|split]; [apply abs_diff_pct_sym | apply abs_diff_pct_sym |].
      apply rr_comp; apply abs_diff_pct_sym.
    + repeat split; apply Qeq_refl.
Qed.

(** X2: for an entry price of 0 or below, [analyze] takes its
    invalid-setup branch: SKIP with MEDIUM confidence and every number 0. *)
Theorem analyze_nonpositive_entry symbol side entry stop target mc :
  entry <= 0 ->
  let a := snd (ExpectedValueCalculator.analyze
                  (TradeSetup.make symbol side entry stop target) mc) in
  EVAnalysis.recommendation a = SKIP /\ EVAnalysis.confidence a = MEDIUM /\
  EVAnalysis.expected_value a == 0 /\ EVAnalysis.risk_reward_ratio a == 0 /\
  EVAnalysis.kelly_fraction a == 0 /\ EVAnalysis.optimal_position_pct a == 0 /\
  EVAnalysis.risk_percent a == 0 /\ EVAnalysis.reward_percent a == 0.
Proof.
  intros He a.
  assert (Hc : TradeSetup.calculate_risk_reward (TradeSetup.make symbol side entry stop target)
               = TradeSetup.make symbol side entry stop target).
  { unfold TradeSetup.calculate_risk_reward. cbn [TradeSetup.entry_price TradeSetup.make].
    rewrite (proj2 (Qle_bool_iff _ _) He). reflexivity. }
  subst a. unfold ExpectedValueCalculator.analyze. rewrite Hc.
  set (wp := ExpectedValueCalculator._estimate_win_probability _ _).
  cbn [TradeSetup.make TradeSetup.reward_percent TradeSetup.risk_percent
       TradeSetup.risk_reward_ratio].
  assert (Hev : wp * 0 - (1 - wp) * 0 == 0) by ring.
  unfold ExpectedValueCalculator._make_decision.
  rewrite (Qltb_comp _ 0 0 0 Hev (Qeq_refl 0)), (Qltb_comp _ 0 ExpectedValueCalculator.MIN_EV ExpectedValueCalculator.MIN_EV Hev (Qeq_refl _)).
  change (Qltb 0 0) with false. change (Qltb 0 ExpectedValueCalculator.MIN_EV) with true. cbv beta iota zeta.
  cbn [EVAnalysis.recommendation EVAnalysis.confidence EVAnalysis.expected_value
       EVAnalysis.risk_reward_ratio EVAnalysis.kelly_fraction EVAnalysis.optimal_position_pct
       EVAnalysis.risk_percent EVAnalysis.reward_percent].
  rewrite (py_round_comp 2 _ 0 Hev).
  unfold ExpectedValueCalculator._calculate_kelly. change (Qle_bool 0 0) with true. cbv iota.
  repeat split; vm_compute; reflexivity.
Qed.

Lemma make_decision_enter ev wp rr ctx :
  fst (fst (ExpectedValueCalculator._make_decision ev wp rr ctx)) = ENTER <->
  ExpectedValueCalculator.MIN_EV <= ev /\ ExpectedValueCalculator.MIN_RISK_REWARD <= rr /\ ExpectedValueCalculator.MIN_WIN_PROB <= wp.
Proof.
  unfold ExpectedValueCalculator._make_decision.
  destruct (Qltb ev 0) eqn:E1.
  { apply Qltb_true in E1. split; [discriminate|]. unfold ExpectedValueCalculator.MIN_EV. intros [H _]. lra. }
  destruct (Qltb ev ExpectedValueCalculator.MIN_EV) eqn:E2.
  { apply Qltb_true in E2. split; [discriminate|]. intros [H _]. lra. }
  destruct (Qltb rr 1.0) eqn:E3.
  { apply Qltb_true in E3. split; [discriminate|]. unfold ExpectedValueCalculator.MIN_RISK_REWARD. intros [_ [H _]]. lra. }
  destruct (Qltb rr ExpectedValueCalculator.MIN_RISK_REWARD) eqn:E4.
  { apply Qltb_true in E4. split; [discriminate|]. intros [_ [H _]]. lra. }
  destruct (Qltb wp ExpectedValueCalculator.MIN_WIN_PROB) eqn:E5.
  { apply Qltb_true in E5. split; [discriminate|]. intros [_ [_ H]]. lra. }
  apply Qltb_false in E2, E4, E5. cbv zeta.
  match goal with |- context [match ?X with pair _ _ => _ end] => destruct X end.
  split; [intros _; auto | reflexivity].
Qed.

(** X3: [analyze] recommends ENTER exactly when the expected value is at
    least MIN_EV, the risk:reward ratio at least MIN_RISK_REWARD and the
    win probability at least MIN_WIN_PROB. *)
Theorem analyze_enter_iff setup mc :
  let s := TradeSetup.calculate_risk_reward setup in
  let wp := ExpectedValueCalculator._estimate_win_probability s (get mc empty_context) in
  EVAnalysis.recommendation (snd (ExpectedValueCalculator.analyze setup mc)) = ENTER <->
  ExpectedValueCalculator.MIN_EV <= expected_value_of setup mc /\
  ExpectedValueCalculator.MIN_RISK_REWARD <= TradeSetup.risk_reward_ratio s /\ ExpectedValueCalculator.MIN_WIN_PROB <= wp.
Proof.
  pose proof (analyze_decision setup mc) as D. cbv zeta in D |- *.
  unfold expected_value_of. cbv zeta.
  revert D. generalize (snd (ExpectedValueCalculator.analyze setup mc)) as a. intros a D.
  rewrite <- (make_decision_enter _ _ _ (get mc empty_context)). rewrite D.
  cbn [fst]. reflexivity.
Qed.

Lemma py_round_nonneg n x : 0 <= x -> 0 <= py_round n x.
Proof.
  intro H. apply Qle_trans with (0 # pow10 n); [unfold Qle; simpl; lia|].
  apply py_round_ge. unfold Qle in *; simpl in *. nia.
Qed.


(** X5: [calculate_position_size] depends on the stop only through its
    distance to the entry: stops on either side at the same distance give
    the same result. *)
Theorem position_size_stop_distance capital risk_per_trade entry_price stop1 stop2 :
  Qabs (entry_price - stop1) == Qabs (entry_price - stop2) ->
  calculate_position_size capital risk_per_trade entry_price stop1 =
  calculate_position_size capital risk_per_trade entry_price stop2.
Proof.
  intro H. unfold calculate_position_size.
  rewrite (Qle_bool_comp _ _ 0 0 H (Qeq_refl 0)).
  destruct (Qle_bool (Qabs (entry_price - stop2)) 0); [reflexivity|].
  f_equal; apply py_round_comp; rewrite H; reflexivity.
Qed.

(** X6: with a non-negative risk fraction and entry price,
    [calculate_position_size] returns non-negative amounts that do not
    decrease when the capital grows. *)
Theorem position_size_monotone_capital c1 c2 risk_per_trade entry_price stop_loss :
  0 <= risk_per_trade -> 0 <= entry_price -> 0 <= c1 -> c1 <= c2 ->
  let p1 := calculate_position_size c1 risk_per_trade entry_price stop_loss in
  let p2 := calculate_position_size c2 risk_per_trade entry_price stop_loss in
  0 <= position_size p1 /\ 0 <= quantity p1 /\ 0 <= risk_amount p1 /\
  position_size p1 <= position_size p2 /\ quantity p1 <= quantity p2 /\
  risk_amount p1 <= risk_amount p2.
Proof.
  intros Hr He Hc1 H12 p1 p2. subst p1 p2. unfold calculate_position_size.
  destruct (Qle_bool (Qabs (entry_price - stop_loss)) 0) eqn:E.
  { cbn [position_size quantity risk_amount]. repeat split; apply Qle_refl. }
  cbv zeta. cbn [position_size quantity risk_amount].
  set (pr := Qabs (entry_price - stop_loss)).
  assert (Hpr : 0 <= / pr) by (apply Qinv_le_0_compat, Qabs_nonneg).
  assert (Ha1 : 0 <= c1 * risk_per_trade) by (apply Qmult_le_0_compat; assumption).
  assert (Ha : c1 * risk_per_trade <= c2 * risk_per_trade)
    by (apply Qmult_le_compat_r; assumption).
  assert (Hq1 : 0 <= c1 * risk_per_trade / pr) by (apply Qmult_le_0_compat; assumption).
  assert (Hq : c1 * risk_per_trade / pr <= c2 * risk_per_trade / pr)
    by (apply Qmult_le_compat_r; assumption).
  assert (Hp1 : 0 <= c1 * risk_per_trade / pr * entry_price)
    by (apply Qmult_le_0_compat; assumption).
  assert (Hp : c1 * risk_per_trade / pr * entry_price <= c2 * risk_per_trade / pr * entry_price)
    by (apply Qmult_le_compat_r; assumption).
  repeat split; (apply py_round_nonneg || apply py_round_mono); assumption.
Qed.

Lemma py_max_ge_r a b : b <= py_max a b.
Proof.
  unfold py_max. destruct (Qltb a b) eqn:E.
  - apply Qle_refl.
  - apply Qltb_false in E. exact E.
Qed.

Lemma last_nth_len {A} (l : list A) d : last l d = nth (length l - 1) l d.
Proof.
  induction l as [|x l IH]; [reflexivity|].
  destruct l as [|y l]; [reflexivity|].
  change (last (x :: y :: l) d) with (last (y :: l) d). rewrite IH.
  cbn [length]. replace (S (S (length l)) - 1)%nat with (S (S (length l) - 1)) by lia.
  reflexivity.
Qed.

Lemma nth_map_seq {A} (f : nat -> A) n i d : (i < n)%nat -> nth i (map f (seq 0 n)) d = f i.
Proof.
  intro H. rewrite (nth_indep _ d (f 0%nat)) by (rewrite length_map, length_seq; lia).
  rewrite map_nth, seq_nth by lia. reflexivity.
Qed.

Lemma length_calculate_indicators candles :
  length (MarketAnalyzer._calculate_indicators candles) = length candles.
Proof.
  unfold MarketAnalyzer._calculate_indicators. cbv zeta.
  rewrite length_map, length_seq. reflexivity.
Qed.

Lemma indicators_row candles i :
  (i < length candles)%nat ->
  r_open (nth i (MarketAnalyzer._calculate_indicators candles) MarketAnalyzer.default_row)
    = open_ (nth i candles (mkCandle 0 0 0 0 0)) /\
  r_high (nth i (MarketAnalyzer._calculate_indicators candles) MarketAnalyzer.default_row)
    = high (nth i candles (mkCandle 0 0 0 0 0)) /\
  r_low (nth i (MarketAnalyzer._calculate_indicators candles) MarketAnalyzer.default_row)
    = low (nth i candles (mkCandle 0 0 0 0 0)) /\
  r_close (nth i (MarketAnalyzer._calculate_indicators candles) MarketAnalyzer.default_row)
    = close (nth i candles (mkCandle 0 0 0 0 0)).
Proof.
  intro H. unfold MarketAnalyzer._calculate_indicators. cbv zeta.
  rewrite nth_map_seq by exact H. cbn [r_open r_high r_low r_close].
  repeat split.
Qed.

Lemma latest_indicators candles :
  candles <> [] ->
  let r := MarketAnalyzer.latest_row (MarketAnalyzer._calculate_indicators candles) in
  let c := last candles (mkCandle 0 0 0 0 0) in
  r_open r = open_ c /\ r_high r = high c /\ r_low r = low c /\ r_close r = close c.
Proof.
  intros Hne r c. subst r c. unfold MarketAnalyzer.latest_row.
  rewrite !last_nth_len, length_calculate_indicators.
  apply indicators_row. destruct candles; [contradiction|]. cbn [length]. lia.
Qed.

Lemma in_last_tail {A} k (l : list A) d :
  (1 <= k)%nat -> l <> [] -> In (last l d) (MarketAnalyzer.tail k l).
Proof.
  intros Hk Hne. destruct (exists_last Hne) as [l' [x ->]].
  rewrite last_last. unfold MarketAnalyzer.tail.
  rewrite length_app, skipn_app. apply in_app_iff. right.
  cbn [length]. replace (length l' + 1 - k - length l')%nat with 0%nat by lia.
  left. reflexivity.
Qed.

Lemma fold_max_le r x B :
  x <= B -> (forall y, In y r -> y <= B) -> fold_left py_max r x <= B.
Proof.
  revert x. induction r as [|y r IH]; intros x Hx Hr; [exact Hx|].
  cbn [fold_left]. apply IH.
  - apply py_max_lub; [exact Hx | apply Hr; left; reflexivity].
  - intros z Hz. apply Hr. right. exact Hz.
Qed.

Lemma fold_max_ge r x y : In y (x :: r) -> y <= fold_left py_max r x.
Proof.
  revert x y. induction r as [|z r IH]; intros x y Hy.
  - destruct Hy as [-> | []]. apply Qle_refl.
  - cbn [fold_left]. destruct Hy as [-> | [-> | Hy]].
    + apply Qle_trans with (py_max y z); [apply py_max_ge_l|].
      apply IH. left. reflexivity.
    + apply Qle_trans with (py_max x y); [apply py_max_ge_r|].
      apply IH. left. reflexivity.
    + apply IH. right. exact Hy.
Qed.

Lemma fold_min_ge r x B :
  B <= x -> (forall y, In y r -> B <= y) -> B <= fold_left py_min r x.
Proof.
  revert x. induction r as [|y r IH]; intros x Hx Hr; [exact Hx|].
  cbn [fold_left]. apply IH.
  - apply py_min_glb; [exact Hx | apply Hr; left; reflexivity].
  - intros z Hz. apply Hr. right. exact Hz.
Qed.

Lemma fold_min_le r x y : In y (x :: r) -> fold_left py_min r x <= y.
Proof.
  revert x y. induction r as [|z r IH]; intros x y Hy.
  - destruct Hy as [-> | []]. apply Qle_refl.
  - cbn [fold_left]. destruct Hy as [-> | [-> | Hy]].
    + apply Qle_trans with (py_min y z); [|apply py_min_le_l].
      apply IH. left. reflexivity.
    + apply Qle_trans with (py_min x y); [|apply py_min_le_r].
      apply IH. left. reflexivity.
    + apply IH. right. exact Hy.
Qed.

Lemma sr_levels_bracket df :
  let latest := MarketAnalyzer.latest_row df in
  r_low latest <= r_close latest -> r_close latest <= r_high latest ->
  fst (MarketAnalyzer._find_sr_levels df) <= r_close latest /\
  r_close latest <= snd (MarketAnalyzer._find_sr_levels df).
Proof.
  intros latest Hl Hh. unfold MarketAnalyzer._find_sr_levels.
  destruct (length df <? 20)%nat eqn:L; [cbn [fst snd]; split; assumption|].
  apply Nat.ltb_ge in L.
  assert (Hin : In latest (MarketAnalyzer.tail 50 df)).
  { apply in_last_tail; [lia|]. intro E. subst df. cbn in L. lia. }
  cbv zeta. fold latest. cbn [fst snd]. split.
  - destruct (filter (fun l => Qltb l (r_close latest)) (map r_low (MarketAnalyzer.tail 50 df)))
      as [|s ss] eqn:S.
    + apply Qle_trans with (r_low latest); [|exact Hl].
      destruct (map r_low (MarketAnalyzer.tail 50 df)) as [|x xs] eqn:M.
      * exfalso. apply (in_map r_low) in Hin. rewrite M in Hin. exact Hin.
      * unfold MarketAnalyzer.list_min. apply fold_min_le.
        rewrite <- M. apply in_map, Hin.
    + unfold MarketAnalyzer.list_max.
      assert (Hall : forall y, In y (s :: ss) -> y <= r_close latest).
      { intros y Hy. rewrite <- S in Hy. apply filter_In in Hy. destruct Hy as [_ Hy].
        apply Qltb_true in Hy. apply Qlt_le_weak, Hy. }
      apply fold_max_le; [apply Hall; left; reflexivity|].
      intros y Hy. apply Hall. right. exact Hy.
  - destruct (filter (fun h => Qltb (r_close latest) h) (map r_high (MarketAnalyzer.tail 50 df)))
      as [|s ss] eqn:S.
    + apply Qle_trans with (r_high latest); [exact Hh|].
      destruct (map r_high (MarketAnalyzer.tail 50 df)) as [|x xs] eqn:M.
      * exfalso. apply (in_map r_high) in Hin. rewrite M in Hin. exact Hin.
      * unfold MarketAnalyzer.list_max. apply fold_max_ge.
        rewrite <- M. apply in_map, Hin.
    + unfold MarketAnalyzer.list_min.
      assert (Hall : forall y, In y (s :: ss) -> r_close latest <= y).
      { intros y Hy. rewrite <- S in Hy. apply filter_In in Hy. destruct Hy as [_ Hy].
        apply Qltb_true in Hy. apply Qlt_le_weak, Hy. }
      apply fold_min_ge; [apply Hall; left; reflexivity|].
      intros y Hy. apply Hall. right. exact Hy.
Qed.

Lemma ma_alignment_direction df :
  MarketAnalyzer._analyze_ma_alignment df =
  (let d := fst (MarketAnalyzer._analyze_trend df) in
   if String.eqb d "up" then "bullish" else if String.eqb d "down" then "bearish"
   else "neutral").
Proof.
  unfold MarketAnalyzer._analyze_ma_alignment, MarketAnalyzer._analyze_trend.
  cbv zeta. cbn [fst].
  set (latest := MarketAnalyzer.latest_row df).
  destruct (r_SMA20 latest) as [a|], (r_SMA50 latest) as [b|]; try reflexivity.
  destruct (Qltb a (r_close latest) && Qltb b a); [reflexivity|].
  destruct (Qltb (r_close latest) a && Qltb a b); reflexivity.
Qed.

(** X7: the MA alignment of [MarketAnalyzer.analyze] is bullish when the
    trend direction is up, bearish when it is down, neutral otherwise. *)
Theorem analyze_ma_alignment_follows_trend candles :
  let m := MarketAnalyzer.analyze candles in
  MarketContext.ma_alignment m =
  (if String.eqb (MarketContext.trend_direction m) "up" then "bullish"
   else if String.eqb (MarketContext.trend_direction m) "down" then "bearish"
   else "neutral").
Proof.
  unfold MarketAnalyzer.analyze.
  destruct (length candles <? 50)%nat; [reflexivity|].
  cbv zeta.
  rewrite ma_alignment_direction. cbv zeta.
  destruct (MarketAnalyzer._analyze_trend _) as [trend_dir trend_str].
  destruct (MarketAnalyzer._find_sr_levels _) as [support resistance].
  destruct (MarketAnalyzer._analyze_volume _) as [vol_trend vol_anomaly].
  destruct (MarketAnalyzer._calculate_bias_scores _ _ _ _ _) as [bull bear].
  destruct (MarketAnalyzer._recommend_strategy _ _ _ _ _ _ _ _ _) as [strategy reasoning].
  cbn [MarketContext.ma_alignment MarketContext.trend_direction fst]. reflexivity.
Qed.

Lemma trend_strength_some df :
  (20 <= length df)%nat -> snd (MarketAnalyzer._analyze_trend df) <> NO_TREND.
Proof.
  intro H. unfold MarketAnalyzer._analyze_trend. cbv zeta. cbn [snd].
  rewrite (proj2 (Nat.leb_le _ _) H).
  set (up := length (filter _ _)).
  assert (Hm : (10 <= Nat.max up (20 - up))%nat) by lia.
  assert (Hr : Qltb 0.45 (inject_Z (Z.of_nat (Nat.max up (20 - up))) / 20) = true).
  { apply Qltb_true. set (k := Nat.max up (20 - up)) in *.
    unfold Qlt, Qdiv, Qmult, inject_Z. cbn [Qnum Qden Qinv]. lia. }
  rewrite Hr.
  destruct (Qltb 0.7 _); [discriminate|]. destruct (Qltb 0.55 _); discriminate.
Qed.

(** X8: [MarketAnalyzer.analyze] reports trend strength NO_TREND exactly
    for series of fewer than 50 candles. *)
Theorem analyze_no_trend_iff_short candles :
  MarketContext.trend_strength (MarketAnalyzer.analyze candles) = NO_TREND <->
  (length candles < 50)%nat.
Proof.
  unfold MarketAnalyzer.analyze.
  destruct (length candles <? 50)%nat eqn:L.
  - apply Nat.ltb_lt in L. split; [intros _; exact L | reflexivity].
  - apply Nat.ltb_ge in L.
    pose proof (trend_strength_some (MarketAnalyzer._calculate_indicators candles)) as T.
    rewrite length_calculate_indicators in T. specialize (T ltac:(lia)).
    cbv zeta.
    destruct (MarketAnalyzer._analyze_trend _) as [trend_dir trend_str].
    destruct (MarketAnalyzer._find_sr_levels _) as [support resistance].
    destruct (MarketAnalyzer._analyze_volume _) as [vol_trend vol_anomaly].
    destruct (MarketAnalyzer._calculate_bias_scores _ _ _ _ _) as [bull bear].
    destruct (MarketAnalyzer._recommend_strategy _ _ _ _ _ _ _ _ _) as [strategy reasoning].
    cbn [MarketContext.trend_strength snd] in *. split; [intro E; contradiction | lia].
Qed.

Lemma nonneg_pct a b : 0 <= a -> 0 <= b -> 0 <= a / b * 100.
Proof.
  intros Ha Hb. apply Qmult_le_0_compat; [|unfold Qle; simpl; lia].
  apply Qmult_le_0_compat; [exact Ha | apply Qinv_le_0_compat, Hb].
Qed.

(** X9: when the last candle has a positive low and a close inside its
    range, the support of [MarketAnalyzer.analyze] is at most the current
    price, the resistance at least it, and both distances are non-negative. *)
Theorem analyze_support_resistance_bracket candles :
  0 < low (last candles (mkCandle 0 0 0 0 0)) ->
  low (last candles (mkCandle 0 0 0 0 0)) <= close (last candles (mkCandle 0 0 0 0 0)) ->
  close (last candles (mkCandle 0 0 0 0 0)) <= high (last candles (mkCandle 0 0 0 0 0)) ->
  let m := MarketAnalyzer.analyze candles in
  MarketContext.nearest_support m <= MarketContext.current_price m /\
  MarketContext.current_price m <= MarketContext.nearest_resistance m /\
  0 <= MarketContext.distance_to_support_pct m /\
  0 <= MarketContext.distance_to_resistance_pct m.
Proof.
  intros H0 H1 H2. unfold MarketAnalyzer.analyze.
  destruct (length candles <? 50)%nat eqn:L.
  { cbn. repeat split; apply Qle_refl. }
  apply Nat.ltb_ge in L.
  assert (Hne : candles <> []) by (intro E; subst candles; cbn in L; lia).
  destruct (latest_indicators candles Hne) as [_ [Eh [El Ec]]].
  pose proof (sr_levels_bracket (MarketAnalyzer._calculate_indicators candles)) as SR.
  cbv zeta in SR |- *.
  set (latest := MarketAnalyzer.latest_row (MarketAnalyzer._calculate_indicators candles)) in *.
  rewrite Eh, El, Ec in SR. rewrite Ec.
  specialize (SR H1 H2).
  destruct (MarketAnalyzer._analyze_trend _) as [trend_dir trend_str].
  destruct (MarketAnalyzer._find_sr_levels _) as [support resistance].
  cbn [fst snd] in SR. destruct SR as [S1 S2].
  destruct (MarketAnalyzer._analyze_volume _) as [vol_trend vol_anomaly].
  destruct (MarketAnalyzer._calculate_bias_scores _ _ _ _ _) as [bull bear].
  destruct (MarketAnalyzer._recommend_strategy _ _ _ _ _ _ _ _ _) as [strategy reasoning].
  cbn [MarketContext.nearest_support MarketContext.nearest_resistance
       MarketContext.current_price MarketContext.distance_to_support_pct
       MarketContext.distance_to_resistance_pct].
  set (price := close (last candles (mkCandle 0 0 0 0 0))) in *.
  assert (Hp : 0 <= price) by lra.
  repeat split.
  - apply py_round_mono, S1.
  - apply py_round_mono, S2.
  - apply py_round_nonneg. destruct (Qltb 0 support);
      [apply nonneg_pct; [lra | exact Hp] | unfold Qle; simpl; lia].
  - apply py_round_nonneg. destruct (Qltb 0 resistance);
      [apply nonneg_pct; [lra | exact Hp] | unfold Qle; simpl; lia].
Qed.

Lemma high_volatility_atr df :
  MarketAnalyzer._determine_regime df = HIGH_VOLATILITY ->
  let latest := MarketAnalyzer.latest_row df in
  Qltb 5 (match r_ATR latest with
          | Some atr => if Qltb 0 (r_close latest) then atr / r_close latest * 100 else 2
          | None => 2
          end) = true.
Proof.
  unfold MarketAnalyzer._determine_regime. cbv zeta.
  destruct (match r_SMA200 _ with Some _ => _ | None => _ end) as [above_200 distance_200].
  destruct (Qltb 5 _); [intros _; reflexivity|].
  destruct (_ && _ && _); [discriminate|].
  destruct (_ && _); [discriminate|].
  destruct (negb above_200 && _ && _); [discriminate|].
  destruct (negb above_200); discriminate.
Qed.

(** X10: a HIGH_VOLATILITY regime of [MarketAnalyzer.analyze] always comes
    with volatility regime "extreme". *)
Theorem analyze_high_volatility_extreme candles :
  MarketContext.regime (MarketAnalyzer.analyze candles) = HIGH_VOLATILITY ->
  MarketContext.volatility_regime (MarketAnalyzer.analyze candles) = "extreme".
Proof.
  unfold MarketAnalyzer.analyze.
  destruct (length candles <? 50)%nat; [discriminate|].
  cbv zeta.
  destruct (MarketAnalyzer._analyze_trend _) as [trend_dir trend_str].
  destruct (MarketAnalyzer._find_sr_levels _) as [support resistance].
  destruct (MarketAnalyzer._analyze_volume _) as [vol_trend vol_anomaly].
  destruct (MarketAnalyzer._calculate_bias_scores _ _ _ _ _) as [bull bear].
  destruct (MarketAnalyzer._recommend_strategy _ _ _ _ _ _ _ _ _) as [strategy reasoning].
  cbn [MarketContext.regime MarketContext.volatility_regime].
  intro H. apply high_volatility_atr in H. cbv zeta in H.
  unfold MarketAnalyzer._classify_volatility.
  apply Qltb_true in H.
  rewrite (proj2 (Qltb_false _ _)) by lra.
  rewrite (proj2 (Qltb_false _ _)) by lra.
  rewrite (proj2 (Qltb_false _ _)) by lra.
  reflexivity.
Qed.

Lemma trend_alignment_plain_strength setup c s :
  String.eqb s "strong" = false -> String.eqb s "weak" = false ->
  ExpectedValueCalculator._calculate_trend_alignment setup
    (with_strength_value c (Some (SVStr s))) =
  ExpectedValueCalculator._calculate_trend_alignment setup (with_strength_value c None).
Proof.
  intros Hs Hw. unfold ExpectedValueCalculator._calculate_trend_alignment.
  cbn [with_strength_value ctx_trend_strength_value ctx_trend_direction get].
  rewrite Hs, Hw. reflexivity.
Qed.

Lemma win_probability_plain_strength setup c s :
  String.eqb s "strong" = false -> String.eqb s "weak" = false ->
  ExpectedValueCalculator._estimate_win_probability setup
    (with_strength_value c (Some (SVStr s))) =
  ExpectedValueCalculator._estimate_win_probability setup (with_strength_value c None).
Proof.
  intros Hs Hw. unfold ExpectedValueCalculator._estimate_win_probability.
  rewrite (trend_alignment_plain_strength _ c s Hs Hw).
  unfold ExpectedValueCalculator._get_pattern_probability,
    ExpectedValueCalculator._calculate_technical_score.
  cbn [with_strength_value ctx_rsi ctx_macd_signal ctx_ma_alignment ctx_trend_direction
       ctx_trend_strength ctx_distance_to_support_pct ctx_distance_to_resistance_pct
       ctx_volatility_regime].
  reflexivity.
Qed.

Lemma make_decision_strength ev wp rr c v1 v2 :
  ExpectedValueCalculator._make_decision ev wp rr (with_strength_value c v1) =
  ExpectedValueCalculator._make_decision ev wp rr (with_strength_value c v2).
Proof.
  unfold ExpectedValueCalculator._make_decision.
  cbn [with_strength_value ctx_volatility_regime]. reflexivity.
Qed.

Lemma analyze_plain_strength setup c s :
  String.eqb s "strong" = false -> String.eqb s "weak" = false ->
  ExpectedValueCalculator.analyze setup (Some (with_strength_value c (Some (SVStr s)))) =
  ExpectedValueCalculator.analyze setup (Some (with_strength_value c None)).
Proof.
  intros Hs Hw. unfold ExpectedValueCalculator.analyze. cbv zeta. cbn [get].
  rewrite (win_probability_plain_strength _ c s Hs Hw).
  rewrite (make_decision_strength _ _ _ c (Some (SVStr s)) None).
  reflexivity.
Qed.

(** X11: on a series of at least 50 candles, the page's
    [analyze_trade_setup] gives the same analysis as with no
    [trend_strength_value] in the context: the value [to_dict] writes
    there is never "strong" or "weak". *)
Theorem page_strength_value_inert symbol side entry stop target candles :
  (50 <= length candles)%nat ->
  RationalTraderPage.analyze_trade_setup symbol side entry stop target candles =
  snd (ExpectedValueCalculator.analyze (TradeSetup.make symbol side entry stop target)
         (Some (with_strength_value
                  (MarketContext.to_dict (MarketAnalyzer.analyze candles)) None))).
Proof.
  intro H. unfold RationalTraderPage.analyze_trade_setup.
  rewrite (proj2 (Nat.ltb_lt 0 (length candles))) by lia.
  assert (E : MarketContext.trend_strength_value (MarketAnalyzer.analyze candles) =
              TrendStrength_value (MarketContext.trend_strength (MarketAnalyzer.analyze candles))).
  { unfold MarketAnalyzer.analyze. rewrite (proj2 (Nat.ltb_ge _ _) H). cbv zeta.
    destruct (MarketAnalyzer._analyze_trend _) as [trend_dir trend_str].
    destruct (MarketAnalyzer._find_sr_levels _) as [support resistance].
    destruct (MarketAnalyzer._analyze_volume _) as [vol_trend vol_anomaly].
    destruct (MarketAnalyzer._calculate_bias_scores _ _ _ _ _) as [bull bear].
    destruct (MarketAnalyzer._recommend_strategy _ _ _ _ _ _ _ _ _) as [strategy reasoning].
    reflexivity. }
  set (m := MarketAnalyzer.analyze candles) in *.
  transitivity (snd (ExpectedValueCalculator.analyze
    (TradeSetup.make symbol side entry stop target)
    (Some (with_strength_value (MarketContext.to_dict m)
             (Some (SVStr (TrendStrength_value (MarketContext.trend_strength m)))))))).
  { rewrite <- E. reflexivity. }
  f_equal.
  apply analyze_plain_strength; destruct (MarketContext.trend_strength m); reflexivity.
Qed.

Lemma history_record_all calls tr :
  EmotionTracker.history (EmotionTracker.record_all calls tr) =
  app (EmotionTracker.history tr) (map history_entry calls).
Proof.
  revert tr. induction calls as [|c calls IH]; intro tr.
  - rewrite app_nil_r. reflexivity.
  - unfold EmotionTracker.record_all in *. cbn [fold_left]. rewrite IH.
    assert (E : EmotionTracker.history (EmotionTracker.record (fst c) (snd c) tr) =
                app (EmotionTracker.history tr) [history_entry c]).
    { unfold EmotionTracker.record, history_entry.
      destruct (EmotionFilter.should_block (snd c)); reflexivity. }
    rewrite E, <- app_assoc. reflexivity.
Qed.

Lemma length_filter_le {A} (f : A -> bool) l : (length (filter f l) <= length l)%nat.
Proof. induction l as [|x l IH]; cbn; [lia|]. destruct (f x); cbn; lia. Qed.

Lemma filter_map_blocked calls :
  filter EmotionTracker.blocked (map history_entry calls) =
  map history_entry (filter (fun c => EmotionFilter.should_block (snd c)) calls).
Proof.
  induction calls as [|c calls IH]; [reflexivity|].
  cbn. destruct (EmotionFilter.should_block (snd c)); cbn; rewrite IH; reflexivity.
Qed.

Lemma flat_map_history calls :
  flat_map EmotionTracker.emotions (map history_entry calls) =
  flat_map (fun c => EmotionFilter.detected_emotions (snd c)) calls.
Proof. induction calls as [|c calls IH]; cbn; [reflexivity|]. rewrite IH. reflexivity. Qed.

(** X12: [get_session_summary] after recording a list of analyses is None
    exactly for the empty list; otherwise it counts all requests and the
    blocked ones, and its block rate lies in [0, 100]. *)
Theorem session_summary_counts calls :
  match EmotionTracker.get_session_summary
          (EmotionTracker.record_all calls EmotionTracker.init) with
  | None => calls = []
  | Some sm =>
      calls <> [] /\
      EmotionTracker.total_requests sm = length calls /\
      EmotionTracker.blocked_requests sm =
        length (filter (fun c => EmotionFilter.should_block (snd c)) calls) /\
      0 <= EmotionTracker.block_rate sm <= 100
  end.
Proof.
  unfold EmotionTracker.get_session_summary. rewrite history_record_all.
  cbn [EmotionTracker.history EmotionTracker.init app].
  destruct calls as [|c cs] eqn:Ec; [reflexivity|].
  rewrite <- Ec. set (hs := map history_entry calls).
  assert (Hhs : hs <> []) by (subst hs calls; discriminate).
  destruct hs as [|h hs'] eqn:Eh; [contradiction|]. rewrite <- Eh.
  cbv zeta. cbn [EmotionTracker.total_requests EmotionTracker.blocked_requests
                 EmotionTracker.block_rate].
  subst hs. rewrite filter_map_blocked, !length_map.
  split; [subst calls; discriminate|]. split; [reflexivity|]. split; [reflexivity|].
  pose proof (length_filter_le (fun c => EmotionFilter.should_block (snd c)) calls) as Hle.
  set (b := length (filter _ calls)) in *.
  assert (Ht : (1 <= length calls)%nat) by (subst calls; cbn; lia).
  assert (H1 : inject_Z (Z.of_nat b) / inject_Z (Z.of_nat (length calls)) <= 1).
  { apply Qle_shift_div_r; [unfold Qlt; simpl; lia|].
    rewrite Qmult_1_l. unfold Qle; simpl; lia. }
  assert (H0 : 0 <= inject_Z (Z.of_nat b) / inject_Z (Z.of_nat (length calls)) * 100)
    by (apply nonneg_pct; unfold Qle; simpl; lia).
  split; [exact H0|]. lra.
Qed.

Lemma count_insert_not_nil e d : EmotionTracker.count_insert e d <> [].
Proof. destruct d as [|[k n] r]; cbn; [discriminate|]. destruct (String.eqb k e); discriminate. Qed.

Lemma fold_count_not_nil xs d :
  d <> [] -> fold_left (fun d e => EmotionTracker.count_insert e d) xs d <> [].
Proof.
  revert d. induction xs as [|x xs IH]; intros d Hd; [exact Hd|].
  cbn [fold_left]. apply IH, count_insert_not_nil.
Qed.

Lemma in_count_insert_keys e d k :
  In k (map fst (EmotionTracker.count_insert e d)) <-> k = e \/ In k (map fst d).
Proof.
  induction d as [|[k' n] r IH]; cbn.
  - split; [intros [H | []]; left; symmetry; exact H | intros [H | []]; left; symmetry; exact H].
  - destruct (String.eqb_spec k' e) as [-> | Hne]; cbn.
    + split; [intros [H | H]; [right; left; exact H | right; right; exact H]|].
      intros [H | [H | H]]; [left; symmetry; exact H | left; exact H | right; exact H].
    + rewrite IH. split.
      * intros [H | [H | H]]; [right; left; exact H | left; exact H | right; right; exact H].
      * intros [H | [H | H]]; [right; left; exact H | left; exact H | right; right; exact H].
Qed.

Lemma count_insert_nodup e d :
  NoDup (map fst d) -> NoDup (map fst (EmotionTracker.count_insert e d)).
Proof.
  induction d as [|[k n] r IH]; intro Hd; cbn.
  - constructor; [intros [] | constructor].
  - inversion Hd as [|? ? Hk Hr]; subst.
    destruct (String.eqb_spec k e) as [-> | Hne]; cbn; [exact Hd|].
    constructor; [|apply IH, Hr].
    rewrite in_count_insert_keys. intros [H | H]; [exact (Hne H) | exact (Hk H)].
Qed.

Lemma count_insert_get e d x :
  get (assoc_get x (EmotionTracker.count_insert e d)) 0%nat =
  (get (assoc_get x d) 0 + if String.eqb e x then 1 else 0)%nat.
Proof.
  induction d as [|[k n] r IH]; cbn.
  - destruct (String.eqb e x); reflexivity.
  - destruct (String.eqb_spec k e) as [-> | Hne]; cbn.
    + destruct (String.eqb e x); cbn; lia.
    + destruct (String.eqb_spec k x) as [-> | Hkx]; cbn.
      * destruct (String.eqb_spec e x) as [-> | _]; [contradiction|]. lia.
      * exact IH.
Qed.

Lemma fold_count_spec xs d :
  NoDup (map fst d) ->
  NoDup (map fst (fold_left (fun d e => EmotionTracker.count_insert e d) xs d)) /\
  forall x, get (assoc_get x (fold_left (fun d e => EmotionTracker.count_insert e d) xs d)) 0%nat =
            (get (assoc_get x d) 0 + count_occ string_dec xs x)%nat.
Proof.
  revert d. induction xs as [|y ys IH]; intros d Hd.
  - split; [exact Hd|]. intro x. cbn. lia.
  - cbn [fold_left]. destruct (IH (EmotionTracker.count_insert y d) (count_insert_nodup y d Hd))
      as [N G]. split; [exact N|].
    intro x. rewrite G, count_insert_get. cbn [count_occ].
    destruct (string_dec y x) as [-> | Hne]; [rewrite String.eqb_refl; lia|].
    destruct (String.eqb_spec y x); [contradiction | lia].
Qed.

Lemma dict_argmax_max d best :
  exists n, In (EmotionTracker.dict_argmax best d, n) (best :: d) /\ (snd best <= n)%nat /\
            forall k m, In (k, m) d -> (m <= n)%nat.
Proof.
  revert best. induction d as [|[k m] r IH]; intro best; cbn [EmotionTracker.dict_argmax].
  - destruct best as [kb nb]. exists nb. cbn. split; [left; reflexivity|].
    split; [lia | intros _ _ []].
  - destruct (snd best <? m)%nat eqn:L.
    + apply Nat.ltb_lt in L. destruct (IH (k, m)) as [n [Hin [Hm Hr]]].
      exists n. split; [right; exact Hin|]. cbn [snd] in Hm. split; [lia|].
      intros k' m' [E | H]; [injection E as -> ->; exact Hm | exact (Hr _ _ H)].
    + apply Nat.ltb_ge in L. destruct (IH best) as [n [Hin [Hm Hr]]].
      exists n. split.
      * destruct Hin as [H | H]; [left; exact H | right; right; exact H].
      * split; [exact Hm|]. intros k' m' [E | H]; [injection E as -> ->; lia | exact (Hr _ _ H)].
Qed.

Lemma flat_map_nil_iff {A B} (f : A -> list B) l :
  flat_map f l = [] <-> forall x, In x l -> f x = [].
Proof.
  induction l as [|x l IH]; cbn.
  - split; [intros _ _ [] | reflexivity].
  - split.
    + intros H y [<- | Hy]; apply app_eq_nil in H; destruct H as [H1 H2];
        [exact H1 | exact (proj1 IH H2 y Hy)].
    + intro H. rewrite (H x (or_introl eq_refl)).
      apply IH. intros y Hy. apply H. right. exact Hy.
Qed.

Lemma summary_counts_of calls :
  calls <> [] ->
  exists sm,
    EmotionTracker.get_session_summary (EmotionTracker.record_all calls EmotionTracker.init)
      = Some sm /\
    EmotionTracker.emotion_distribution sm =
      fold_left (fun d e => EmotionTracker.count_insert e d)
        (flat_map (fun c => EmotionFilter.detected_emotions (snd c)) calls) [] /\
    EmotionTracker.most_common_emotion sm =
      match EmotionTracker.emotion_distribution sm with
      | [] => None
      | kn :: r => Some (EmotionTracker.dict_argmax kn r)
      end.
Proof.
  intro Hne. unfold EmotionTracker.get_session_summary. rewrite history_record_all.
  cbn [EmotionTracker.history EmotionTracker.init app].
  destruct (map history_entry calls) as [|h hs] eqn:Eh.
  { destruct calls; [contradiction | discriminate]. }
  rewrite <- Eh, flat_map_history. cbv zeta.
  eexists. split; [reflexivity|]. split; reflexivity.
Qed.

(** X13: the most common emotion of the session summary is None exactly
    when no recorded analysis detected an emotion; otherwise it is an
    emotion of the distribution with a maximal count. *)
Theorem session_most_common calls :
  match EmotionTracker.get_session_summary
          (EmotionTracker.record_all calls EmotionTracker.init) with
  | None => True
  | Some sm =>
      (EmotionTracker.most_common_emotion sm = None <->
       forall c, In c calls -> EmotionFilter.detected_emotions (snd c) = []) /\
      (forall e, EmotionTracker.most_common_emotion sm = Some e ->
       exists n, In (e, n) (EmotionTracker.emotion_distribution sm) /\
         forall k m, In (k, m) (EmotionTracker.emotion_distribution sm) -> (m <= n)%nat)
  end.
Proof.
  destruct calls as [|c cs] eqn:Ec; [exact I|]. rewrite <- Ec.
  assert (Hne : calls <> []) by (subst calls; discriminate).
  destruct (summary_counts_of calls Hne) as [sm [-> [D M]]].
  rewrite M. rewrite <- flat_map_nil_iff. split.
  - destruct (EmotionTracker.emotion_distribution sm) as [|kn r] eqn:Ed.
    + split; [intros _|reflexivity].
      destruct (flat_map _ calls) as [|x xs] eqn:Ef; [reflexivity|].
      exfalso. symmetry in D. revert D. cbn [fold_left].
      apply fold_count_not_nil, count_insert_not_nil.
    + split; [discriminate|]. intro Hf. rewrite Hf in D. cbn in D. discriminate D.
  - intro e. destruct (EmotionTracker.emotion_distribution sm) as [|kn r]; [discriminate|].
    intro E. injection E as <-. destruct (dict_argmax_max r kn) as [n [Hin [Hb Hr]]].
    exists n. split; [exact Hin|].
    intros k m [E | H]; [subst kn; exact Hb | exact (Hr _ _ H)].
Qed.

(** X14: the emotion distribution of the session summary has distinct keys
    and counts each emotion as often as it occurs in the recorded
    analyses. *)
Theorem session_distribution_counts calls :
  match EmotionTracker.get_session_summary
          (EmotionTracker.record_all calls EmotionTracker.init) with
  | None => True
  | Some sm =>
      NoDup (map fst (EmotionTracker.emotion_distribution sm)) /\
      forall e, get (assoc_get e (EmotionTracker.emotion_distribution sm)) 0%nat =
                count_occ string_dec
                  (flat_map (fun c => EmotionFilter.detected_emotions (snd c)) calls) e
  end.
Proof.
  destruct calls as [|c cs] eqn:Ec; [exact I|]. rewrite <- Ec.
  assert (Hne : calls <> []) by (subst calls; discriminate).
  destruct (summary_counts_of calls Hne) as [sm [-> [D _]]].
  rewrite D. destruct (fold_count_spec
    (flat_map (fun c => EmotionFilter.detected_emotions (snd c)) calls) [] (NoDup_nil _))
    as [N G].
  split; [exact N|]. intro e. rewrite G. reflexivity.
Qed.

(** X15: [get_emotion_report] of a rational analysis is the single
    all-clear line; its "❌ 거래 차단 권장" line is present exactly when the
    analysis blocks. *)
Theorem emotion_report_block_line a :
  (EmotionFilter.is_rational a = true ->
   EmotionFilter.get_emotion_report a = "✅ 이성적인 요청으로 판단됩니다. 분석을 진행합니다.") /\
  (In "❌ 거래 차단 권장" (EmotionFilter.get_emotion_report_lines a) <->
   EmotionFilter.should_block a = true).
Proof.
  split.
  { intro H. unfold EmotionFilter.get_emotion_report. rewrite H. reflexivity. }
  unfold EmotionFilter.get_emotion_report_lines.
  destruct (EmotionFilter.should_block a).
  - split; [reflexivity|]. intros _.
    apply in_app_iff. right. apply in_app_iff. right. apply in_app_iff. left.
    right. right. left. reflexivity.
  - split; [|discriminate]. intro H. exfalso.
    destruct (EmotionFilter.warnings a) as [|w ws];
    repeat match goal with
      | H : In _ (_ ++ _) |- _ => apply in_app_iff in H; destruct H as [H|H]
      | H : In _ (map _ _) |- _ => apply in_map_iff in H; destruct H as [? [H _]]
      | H : In _ (_ :: _) |- _ => destruct H as [H|H]
      | H : In _ [] |- _ => destruct H
      end;
    try discriminate H.

Qed.

Lemma detect_pattern_nonneg text ps : 0 <= EmotionFilter._detect_pattern text ps.
Proof.
  unfold EmotionFilter._detect_pattern. apply py_min_glb; [unfold Qle; simpl; lia|].
  unfold Qdiv. apply Qmult_le_0_compat; [unfold Qle; simpl; lia | unfold Qle; simpl; lia].
Qed.

Ltac emotion_step :=
  lazymatch goal with
  | |- context [match ?X with pair _ _ => _ end] =>
      lazymatch type of X with prod (prod (prod _ _) _) _ => idtac end;
      let d := fresh "d" in let dt := fresh "dt" in let t := fresh "t" in
      let w := fresh "w" in let E := fresh "E" in
      let It := fresh "It" in let Id := fresh "Id" in
      destruct X as [[[d dt] t] w] eqn:E;
      assert (0 <= t /\ map fst dt = d) as [It Id];
      [ repeat match type of E with
          | context [if ?c then _ else _] => destruct c
          | context [match ?o with Some _ => _ | None => _ end] =>
              lazymatch type of o with option _ => destruct o end
          end;
        cbv beta iota zeta in E;
        injection E as <- <- <- <-;
        (split; [lra | rewrite ?map_app; cbn [map fst]; congruence])
      | clear E ]
  end.

(** X16: [analyze_request] returns a score in [0, 1], never blocks a
    request it calls rational, and lists its details in the order of the
    detected emotions. *)
Theorem analyze_request_invariants msg mv lt ts :
  let a := EmotionFilter.analyze_request msg mv lt ts in
  (0 <= EmotionFilter.emotion_score a /\ EmotionFilter.emotion_score a <= 1) /\
  (EmotionFilter.should_block a = true -> EmotionFilter.is_rational a = false) /\
  map fst (EmotionFilter.emotion_details a) = EmotionFilter.detected_emotions a.
Proof.
  unfold EmotionFilter.analyze_request. cbv zeta.
  set (m := py_lower msg).
  pose proof (detect_pattern_nonneg m EmotionFilter.FOMO_PATTERNS) as N1.
  pose proof (detect_pattern_nonneg m EmotionFilter.FEAR_PATTERNS) as N2.
  pose proof (detect_pattern_nonneg m EmotionFilter.REVENGE_PATTERNS) as N3.
  pose proof (detect_pattern_nonneg m EmotionFilter.OVERCONFIDENCE_PATTERNS) as N4.
  pose proof (detect_pattern_nonneg m EmotionFilter.GREED_PATTERNS) as N5.
  pose proof (detect_pattern_nonneg m EmotionFilter.SUNK_COST_PATTERNS) as N6.
  do 6 emotion_step.
  cbn [EmotionFilter.emotion_score EmotionFilter.should_block EmotionFilter.is_rational
       EmotionFilter.emotion_details EmotionFilter.detected_emotions].
  split; [|split; [|exact Id4]].
  - assert (B0 : 0 <= py_min 1.0 t4) by (apply py_min_glb; [unfold Qle; simpl; lia | exact It4]).
    assert (B1 : py_min 1.0 t4 <= 1)
      by (eapply Qle_trans; [apply py_min_le_l | unfold Qle; simpl; lia]).
    apply (py_round_between 2 _ 0 1 0 100); [reflexivity | reflexivity | exact B0 | exact B1].
  - intro H. apply Qle_bool_iff in H. apply Qltb_false. lra.
Qed.

Lemma emotion_cap_sum_snoc es e :
  emotion_cap_sum (app es [e]) == emotion_cap_sum es + emotion_cap e.
Proof.
  unfold emotion_cap_sum.
  induction es as [|x es IH]; cbn [fold_right app]; [ring|].
  rewrite IH. ring.
Qed.

Lemma detect_pattern_le_1 text ps : EmotionFilter._detect_pattern text ps <= 1.
Proof.
  unfold EmotionFilter._detect_pattern.
  eapply Qle_trans; [apply py_min_le_l | unfold Qle; simpl; lia].
Qed.

Ltac emotion_cap_step :=
  lazymatch goal with
  | |- context [match ?X with pair _ _ => _ end] =>
      lazymatch type of X with prod (prod (prod _ _) _) _ => idtac end;
      let d := fresh "d" in let dt := fresh "dt" in let t := fresh "t" in
      let w := fresh "w" in let E := fresh "E" in let It := fresh "It" in
      destruct X as [[[d dt] t] w] eqn:E;
      assert (It : t <= emotion_cap_sum d);
      [ repeat match type of E with
          | context [if ?c then _ else _] => destruct c
          | context [match ?o with Some _ => _ | None => _ end] =>
              lazymatch type of o with option _ => destruct o end
          end;
        cbv beta iota zeta in E;
        injection E as <- <- <- <-;
        rewrite ?emotion_cap_sum_snoc;
        cbn [emotion_cap_sum fold_right emotion_cap String.eqb Ascii.eqb Bool.eqb];
        lra
      | clear E ]
  end.

(** X17: [analyze_request] blocks only when revenge or at least two
    emotion categories are detected. *)
Theorem block_needs_revenge_or_two a_msg mv lt ts :
  let a := EmotionFilter.analyze_request a_msg mv lt ts in
  EmotionFilter.should_block a = true ->
  In "revenge" (EmotionFilter.detected_emotions a) \/
  (2 <= length (EmotionFilter.detected_emotions a))%nat.
Proof.
  unfold EmotionFilter.analyze_request. cbv zeta.
  set (m := py_lower a_msg).
  pose proof (detect_pattern_le_1 m EmotionFilter.FOMO_PATTERNS) as N1.
  pose proof (detect_pattern_le_1 m EmotionFilter.FEAR_PATTERNS) as N2.
  pose proof (detect_pattern_le_1 m EmotionFilter.REVENGE_PATTERNS) as N3.
  pose proof (detect_pattern_le_1 m EmotionFilter.OVERCONFIDENCE_PATTERNS) as N4.
  pose proof (detect_pattern_le_1 m EmotionFilter.GREED_PATTERNS) as N5.
  pose proof (detect_pattern_le_1 m EmotionFilter.SUNK_COST_PATTERNS) as N6.
  do 6 emotion_cap_step.
  cbn [EmotionFilter.should_block EmotionFilter.detected_emotions].
  intro H. apply Qle_bool_iff in H.
  pose proof (py_min_le_r 1.0 t4) as B.
  destruct (in_dec string_dec "revenge" d4) as [R | R]; [left; exact R | right].
  destruct d4 as [|e [|e' r]]; cbn [length]; [exfalso | exfalso | lia].
  - cbn [emotion_cap_sum fold_right] in It4. lra.
  - assert (Hc : emotion_cap e <= 0.55).
    { unfold emotion_cap.
      destruct (String.eqb_spec e "revenge") as [-> | Hr]; [exfalso; apply R; left; reflexivity|].
      repeat match goal with |- context [if ?c then _ else _] => destruct c end;
        unfold Qle; simpl; lia. }
    cbn [emotion_cap_sum fold_right] in It4. lra.
Qed.

Lemma process_request_state ext self now msg md ohlcv lt :
  let a := EmotionFilter.analyze_request msg
             (RationalTradingAI.md_recent_move (get md RationalTradingAI.no_market_data)) lt None in
  snd (RationalTradingAI.process_request ext self now msg md ohlcv lt) =
  RationalTradingAI.mk (RationalTradingAI.capital self)
    (EmotionTracker.record now a (RationalTradingAI.emotion_tracker self)) /\
  (fst (RationalTradingAI.process_request ext self now msg md ohlcv lt) = RationalTradingAI.ForceBreak <->
   EmotionTracker.should_force_break
     (EmotionTracker.record now a (RationalTradingAI.emotion_tracker self)) = true).
Proof.
  intro a. unfold RationalTradingAI.process_request. cbv zeta. fold a.
  destruct (EmotionTracker.should_force_break _) eqn:F.
  { split; [reflexivity | split; intros _; reflexivity]. }
  split; [|split; [|discriminate]].
  - destruct (negb (EmotionFilter.is_rational a)); [reflexivity|].
    destruct (ext msg _) as [setup|]; [|reflexivity].
    destruct (ExpectedValueCalculator.analyze _ _) as [s ev]. reflexivity.
  - destruct (negb (EmotionFilter.is_rational a)).
    { unfold RationalTradingAI._handle_emotional_request.
      destruct (EmotionFilter.should_block a); discriminate. }
    destruct (ext msg _) as [setup|]; [|discriminate].
    destruct (ExpectedValueCalculator.analyze _ _) as [s ev].
    unfold RationalTradingAI._generate_trade_response.
    destruct (EVAnalysis.recommendation ev); discriminate.
Qed.

(** X18: for a message the filter does not find rational,
    [process_request] never reaches the OHLCV data or the trade-setup
    parser: it answers with the force-break reply, the blocked reply with
    report and advice, or the emotional AI reply. *)
Theorem process_request_emotional_gate ext self now msg md ohlcv lt ext' ohlcv' :
  let a := EmotionFilter.analyze_request msg
             (RationalTradingAI.md_recent_move (get md RationalTradingAI.no_market_data)) lt None in
  EmotionFilter.is_rational a = false ->
  let r := fst (RationalTradingAI.process_request ext self now msg md ohlcv lt) in
  r = fst (RationalTradingAI.process_request ext' self now msg md ohlcv' lt) /\
  (r = RationalTradingAI.ForceBreak \/
   (EmotionFilter.should_block a = true /\
    r = RationalTradingAI.BlockedReply (EmotionFilter.get_emotion_report a)
          (EmotionFilter.alternative_advice a)) \/
   (EmotionFilter.should_block a = false /\
    r = RationalTradingAI.EmotionalAIReply msg a (get md RationalTradingAI.no_market_data))).
Proof.
  intros a H r. subst r. unfold RationalTradingAI.process_request. cbv zeta. fold a.
  rewrite H. cbn [negb].
  destruct (EmotionTracker.should_force_break _); [split; [reflexivity | left; reflexivity]|].
  split; [reflexivity|]. right. unfold RationalTradingAI._handle_emotional_request.
  destruct (EmotionFilter.should_block a); [left | right]; split; reflexivity.
Qed.

Lemma process_session_app ext self reqs q :
  RationalTradingAI.process_session ext self (app reqs [q]) =
  let '(r, s) := RationalTradingAI.process_request ext
                   (snd (RationalTradingAI.process_session ext self reqs))
                   (RationalTradingAI.req_time q) (RationalTradingAI.req_message q)
                   (RationalTradingAI.req_market_data q) (RationalTradingAI.req_ohlcv q)
                   (RationalTradingAI.req_last_trade q) in
  (app (fst (RationalTradingAI.process_session ext self reqs)) [r], s).
Proof. unfold RationalTradingAI.process_session. rewrite fold_left_app. reflexivity. Qed.

Lemma force_break_leading bs :
  (3 <=? leading_true bs)%nat =
  match bs with true :: true :: true :: _ => true | _ => false end.
Proof. destruct bs as [|[] [|[] [|[] r]]]; reflexivity. Qed.

(** X19: a session of [process_request] calls keeps the capital, records
    one analysis per request and answers each request; the i-th answer is
    the force-break reply exactly when the last three recorded analyses up
    to it all blocked. *)
Theorem process_session_responses ext cap reqs :
  let res := RationalTradingAI.process_session ext (RationalTradingAI.init cap) reqs in
  RationalTradingAI.emotion_tracker (snd res) =
    EmotionTracker.record_all (map request_call reqs) EmotionTracker.init /\
  RationalTradingAI.capital (snd res) = cap /\
  length (fst res) = length reqs /\
  forall i, (i < length reqs)%nat ->
    (nth i (fst res) RationalTradingAI.ForceBreak = RationalTradingAI.ForceBreak <->
     last_three_blocked (firstn (S i) (map request_call reqs)) = true).
Proof.
  induction reqs as [|q reqs IH] using rev_ind.
  - cbn. split; [reflexivity|]. split; [reflexivity|]. split; [reflexivity|].
    intros i Hi. cbn in Hi. lia.
  - cbv zeta in IH |- *. rewrite process_session_app.
    destruct IH as [T [C [L N]]].
    destruct (RationalTradingAI.process_session ext (RationalTradingAI.init cap) reqs) as [rs s].
    cbn [fst snd] in *.
    pose proof (process_request_state ext s (RationalTradingAI.req_time q)
      (RationalTradingAI.req_message q) (RationalTradingAI.req_market_data q)
      (RationalTradingAI.req_ohlcv q) (RationalTradingAI.req_last_trade q)) as [S F].
    cbv zeta in S, F.
    destruct (RationalTradingAI.process_request _ _ _ _ _ _ _) as [r s'].
    cbn [fst snd] in *. subst s'. cbn [RationalTradingAI.emotion_tracker RationalTradingAI.capital].
    rewrite map_app. cbn [map]. rewrite record_all_app, T.
    split; [unfold request_call, RationalTradingAI.request_emotion; cbn [fst snd]; reflexivity|].
    split; [exact C|].
    rewrite !length_app. split; [cbn; lia|].
    intros i Hi. cbn [length] in Hi.
    destruct (Nat.lt_ge_cases i (length reqs)) as [Hlt | Hge].
    + rewrite app_nth1 by lia. rewrite N by exact Hlt.
      rewrite firstn_app, length_map.
      replace (S i - length reqs)%nat with 0%nat by lia. rewrite app_nil_r. reflexivity.
    + assert (i = length reqs) by lia. subst i.
      rewrite app_nth2 by lia. rewrite L, Nat.sub_diag. cbn [nth].
      rewrite firstn_all2 by (rewrite length_app, length_map; cbn; lia).
      rewrite F, T.
      transitivity (EmotionTracker.should_force_break (EmotionTracker.record_all
        (app (map request_call reqs) [request_call q]) EmotionTracker.init) = true).
      { rewrite record_all_app. unfold request_call, RationalTradingAI.request_emotion.
        cbn [fst snd]. reflexivity. }
      unfold EmotionTracker.should_force_break.
      rewrite record_all_consecutive_blocks, force_break_leading.
      unfold last_three_blocked. reflexivity.
Qed.

Lemma analyze_nonpositive_entry_witness :
  0 <= 0 /\
  (let a := snd (ExpectedValueCalculator.analyze
                  (TradeSetup.make "BTC/KRW" "long" 0 95 105) None) in
   EVAnalysis.recommendation a = SKIP /\ EVAnalysis.confidence a = MEDIUM /\
   EVAnalysis.expected_value a == 0 /\ EVAnalysis.risk_reward_ratio a == 0 /\
   EVAnalysis.kelly_fraction a == 0 /\ EVAnalysis.optimal_position_pct a == 0 /\
   EVAnalysis.risk_percent a == 0 /\ EVAnalysis.reward_percent a == 0).
Proof.
  split; [apply Qle_refl|].
  apply (analyze_nonpositive_entry "BTC/KRW" "long" 0 95 105 None). apply Qle_refl.
Defined.

Lemma position_size_stop_distance_witness :
  Qabs (100 - 95) == Qabs (100 - 105) /\
  calculate_position_size 1000000 0.02 100 95 = calculate_position_size 1000000 0.02 100 105.
Proof.
  assert (H : Qabs (100 - 95) == Qabs (100 - 105)) by (vm_compute; reflexivity).
  split; [exact H|].
  exact (position_size_stop_distance 1000000 0.02 100 95 105 H).
Defined.

Lemma position_size_monotone_capital_witness :
  (0 <= 0.02 /\ 0 <= 100 /\ 0 <= 1000000 /\ 1000000 <= 2000000) /\
  (let p1 := calculate_position_size 1000000 0.02 100 95 in
   let p2 := calculate_position_size 2000000 0.02 100 95 in
   0 <= position_size p1 /\ 0 <= quantity p1 /\ 0 <= risk_amount p1 /\
   position_size p1 <= position_size p2 /\ quantity p1 <= quantity p2 /\
   risk_amount p1 <= risk_amount p2).
Proof.
  split; [repeat split; vm_compute; discriminate|].
  apply position_size_monotone_capital; vm_compute; discriminate.
Defined.

Lemma analyze_support_resistance_bracket_witness :
  let c := last (flat_candles 50) (mkCandle 0 0 0 0 0) in
  (0 < low c /\ low c <= close c /\ close c <= high c) /\
  (let m := MarketAnalyzer.analyze (flat_candles 50) in
   MarketContext.nearest_support m <= MarketContext.current_price m /\
   MarketContext.current_price m <= MarketContext.nearest_resistance m /\
   0 <= MarketContext.distance_to_support_pct m /\
   0 <= MarketContext.distance_to_resistance_pct m).
Proof.
  cbv zeta.
  split; [vm_compute; repeat split; try reflexivity; discriminate|].
  apply analyze_support_resistance_bracket; vm_compute; try reflexivity; discriminate.
Defined.

Lemma analyze_high_volatility_extreme_witness :
  MarketContext.regime (MarketAnalyzer.analyze (wild_candles 50)) = HIGH_VOLATILITY /\
  MarketContext.volatility_regime (MarketAnalyzer.analyze (wild_candles 50)) = "extreme".
Proof.
  assert (H : MarketContext.regime (MarketAnalyzer.analyze (wild_candles 50)) = HIGH_VOLATILITY)
    by (vm_compute; reflexivity).
  split; [exact H|].
  exact (analyze_high_volatility_extreme (wild_candles 50) H).
Defined.

Lemma page_strength_value_inert_witness :
  (50 <= length (flat_candles 50))%nat /\
  RationalTraderPage.analyze_trade_setup "BTC/KRW" "long" 100 95 110 (flat_candles 50) =
  snd (ExpectedValueCalculator.analyze (TradeSetup.make "BTC/KRW" "long" 100 95 110)
         (Some (with_strength_value
                  (MarketContext.to_dict (MarketAnalyzer.analyze (flat_candles 50))) None))).
Proof.
  assert (H : (50 <= length (flat_candles 50))%nat) by (vm_compute; lia).
  split; [exact H|].
  exact (page_strength_value_inert "BTC/KRW" "long" 100 95 110 (flat_candles 50) H).
Defined.

Lemma block_needs_revenge_or_two_witness :
  let a := EmotionFilter.analyze_request revenge_message None None None in
  EmotionFilter.should_block a = true /\
  (In "revenge" (EmotionFilter.detected_emotions a) \/
   (2 <= length (EmotionFilter.detected_emotions a))%nat).
Proof.
  cbv zeta.
  assert (H : EmotionFilter.should_block
                (EmotionFilter.analyze_request revenge_message None None None) = true)
    by (vm_compute; reflexivity).
  split; [exact H|].
  exact (block_needs_revenge_or_two revenge_message None None None H).
Defined.

Lemma process_request_emotional_gate_witness :
  let ext := fun (_ : string) (_ : RationalTradingAI.MarketData) => @None TradeSetup.t in
  let a := EmotionFilter.analyze_request revenge_message
             (RationalTradingAI.md_recent_move (get None RationalTradingAI.no_market_data))
             None None in
  EmotionFilter.is_rational a = false /\
  (let r := fst (RationalTradingAI.process_request ext (RationalTradingAI.init 1000000) 0
                   revenge_message None None None) in
   r = fst (RationalTradingAI.process_request ext (RationalTradingAI.init 1000000) 0
              revenge_message None (Some (flat_candles 50)) None) /\
   (r = RationalTradingAI.ForceBreak \/
    (EmotionFilter.should_block a = true /\
     r = RationalTradingAI.BlockedReply (EmotionFilter.get_emotion_report a)
           (EmotionFilter.alternative_advice a)) \/
    (EmotionFilter.should_block a = false /\
     r = RationalTradingAI.EmotionalAIReply revenge_message a
           (get None RationalTradingAI.no_market_data)))).
Proof.
  cbv zeta.
  assert (H : EmotionFilter.is_rational
                (EmotionFilter.analyze_request revenge_message
                   (RationalTradingAI.md_recent_move (get None RationalTradingAI.no_market_data))
                   None None) = false) by (vm_compute; reflexivity).
  split; [exact H|].
  exact (process_request_emotional_gate _ (RationalTradingAI.init 1000000) 0 revenge_message
           None None None _ (Some (flat_candles 50)) H).
Defined.
